(** * The Payload MCP adapter: dispatcher, executor, stdio loop and HTTP client

    A shallow embedding of [payload-mcp/server.py] (class [PayloadMCPServer])
    and of [mcp_client.py] (class [PayloadMCPClient]).

    Python values that travel through the adapter are JSON values; Python
    exceptions are results of an error type; the PostgreSQL store reached
    through psycopg2 is an explicit state threaded through every tool. *)

From Stdlib Require Import String Ascii List ZArith Lia Bool Arith.
From Stdlib Require Import DecimalString Sorting.Sorted.
Import ListNotations.

Local Open Scope list_scope.
Local Open Scope string_scope.
Local Set Warnings "-register-all".

(** ** Python values *)

Module Py.

(** The values [json.loads] produces and [json.dumps] consumes.  A [dict] is
    an association list in insertion order (the order [json.dumps] prints);
    a key is looked up at its first occurrence.  Numbers are the integers: a
    JSON literal with a fraction or an exponent is outside the model.  A
    Python [str] is a [string] whose characters are code points below 256. *)
Inductive json : Type :=
| JNull
| JBool (b : bool)
| JNum (n : Z)
| JStr (s : string)
| JArr (xs : list json)
| JObj (kvs : list (string * json)).

Definition dict := list (string * json).

(** The exceptions the two programs can meet, with the argument that
    [str(e)] prints. *)
Inductive exn : Type :=
| KeyError (key : string)
| TypeError (msg : string)
| AttributeError (msg : string)
| JSONDecodeError (msg : string)
| DatabaseError (msg : string)
| RequestException (msg : string).

(** What a Python call does: it returns a value or raises. *)
Inductive outcome (A : Type) : Type :=
| Return (a : A)
| Raise (e : exn).
Arguments Return {A} a.
Arguments Raise {A} e.

Definition nl : string := String "010" EmptyString.
Definition dquote : ascii := Eval cbv in ascii_of_nat 34.
Definition squote : ascii := "'"%char.
Definition backslash : ascii := "\"%char.

Definition string_of_Z (n : Z) : string :=
  NilZero.string_of_int (Z.to_int n).

(** [type(v).__name__] *)
Definition type_name (v : json) : string :=
  match v with
  | JNull => "NoneType"
  | JBool _ => "bool"
  | JNum _ => "int"
  | JStr _ => "str"
  | JArr _ => "list"
  | JObj _ => "dict"
  end.

Fixpoint assoc (k : string) (kvs : dict) : option json :=
  match kvs with
  | [] => None
  | (k', v) :: rest => if String.eqb k k' then Some v else assoc k rest
  end.

(** [d.get(k, default)]: an attribute of dictionaries only. *)
Definition get (d : json) (k : string) (default : json) : outcome json :=
  match d with
  | JObj kvs =>
      match assoc k kvs with
      | Some v => Return v
      | None => Return default
      end
  | _ => Raise (AttributeError
                  ("'" ++ type_name d ++ "' object has no attribute 'get'"))
  end.

Definition hex_digit (n : nat) : ascii :=
  nth n ["0"; "1"; "2"; "3"; "4"; "5"; "6"; "7";
         "8"; "9"; "a"; "b"; "c"; "d"; "e"; "f"]%char "0"%char.

Definition hex2 (c : ascii) : string :=
  let n := nat_of_ascii c in
  String (hex_digit (n / 16)) (String (hex_digit (n mod 16)) EmptyString).

Fixpoint contains_char (c : ascii) (s : string) : bool :=
  match s with
  | EmptyString => false
  | String a rest => if Ascii.eqb a c then true else contains_char c rest
  end.

(** Code points below 256 that [str.isprintable] rejects. *)
Definition unprintable (c : ascii) : bool :=
  let n := nat_of_ascii c in
  ((n <? 32) || ((127 <=? n) && (n <=? 160)) || (n =? 173))%nat.

Definition repr_char (quote c : ascii) : string :=
  if Ascii.eqb c backslash then String backslash (String backslash EmptyString)
  else if Ascii.eqb c quote then String backslash (String quote EmptyString)
  else if Ascii.eqb c "010" then String backslash "n"
  else if Ascii.eqb c "013" then String backslash "r"
  else if Ascii.eqb c "009" then String backslash "t"
  else if unprintable c then String backslash ("x" ++ hex2 c)
  else String c EmptyString.

Fixpoint repr_chars (quote : ascii) (s : string) : string :=
  match s with
  | EmptyString => EmptyString
  | String c rest => repr_char quote c ++ repr_chars quote rest
  end.

(** [repr(s)] of a [str]: single quotes, unless the text has a single quote
    and no double quote. *)
Definition repr_str (s : string) : string :=
  let quote :=
    if contains_char squote s && negb (contains_char dquote s)
    then dquote else squote in
  String quote (repr_chars quote s ++ String quote EmptyString).

Fixpoint join (sep : string) (parts : list string) : string :=
  match parts with
  | [] => EmptyString
  | [p] => p
  | p :: rest => p ++ sep ++ join sep rest
  end.

(** [repr(v)] *)
Fixpoint repr (v : json) : string :=
  match v with
  | JNull => "None"
  | JBool true => "True"
  | JBool false => "False"
  | JNum n => string_of_Z n
  | JStr s => repr_str s
  | JArr xs => "[" ++ join ", " (map repr xs) ++ "]"
  | JObj kvs =>
      "{" ++ join ", " (map (fun kv => repr_str (fst kv) ++ ": " ++ repr (snd kv)) kvs)
          ++ "}"
  end.

(** [str(v)], which is what an f-string field [{v}] prints. *)
Definition str (v : json) : string :=
  match v with
  | JStr s => s
  | _ => repr v
  end.

(** [str(e)] *)
Definition exn_str (e : exn) : string :=
  match e with
  | KeyError key => repr_str key
  | TypeError msg => msg
  | AttributeError msg => msg
  | JSONDecodeError msg => msg
  | DatabaseError msg => msg
  | RequestException msg => msg
  end.

(** [v == 'literal'] for a string literal: true for that very text only. *)
Definition eq_str (v : json) (lit : string) : bool :=
  match v with
  | JStr s => String.eqb s lit
  | _ => false
  end.

(** [v[k]] with a string key. *)
Definition subscript (v : json) (k : string) : outcome json :=
  match v with
  | JObj kvs =>
      match assoc k kvs with
      | Some x => Return x
      | None => Raise (KeyError k)
      end
  | JArr _ => Raise (TypeError "list indices must be integers or slices, not str")
  | JStr _ => Raise (TypeError "string indices must be integers, not 'str'")
  | _ => Raise (TypeError ("'" ++ type_name v ++ "' object is not subscriptable"))
  end.

Fixpoint take (n : nat) (s : string) : string :=
  match n, s with
  | O, _ => EmptyString
  | S _, EmptyString => EmptyString
  | S m, String c rest => String c (take m rest)
  end.

Fixpoint drop (n : nat) (s : string) : string :=
  match n, s with
  | O, _ => s
  | S _, EmptyString => EmptyString
  | S m, String _ rest => drop m rest
  end.

(** [v[:n]] *)
Definition slice_to (v : json) (n : nat) : outcome json :=
  match v with
  | JStr s => Return (JStr (take n s))
  | JArr xs => Return (JArr (firstn n xs))
  | JObj _ => Raise (TypeError "unhashable type: 'slice'")
  | _ => Raise (TypeError ("'" ++ type_name v ++ "' object is not subscriptable"))
  end.

(** Truth value of [v] in a condition. *)
Definition truthy (v : json) : bool :=
  match v with
  | JNull => false
  | JBool b => b
  | JNum n => negb (n =? 0)%Z
  | JStr s => negb (String.eqb s EmptyString)
  | JArr xs => match xs with [] => false | _ => true end
  | JObj kvs => match kvs with [] => false | _ => true end
  end.

(** *** [json.dumps] with its default settings *)

Definition hex4 (c : ascii) : string := "00" ++ hex2 c.

Definition dumps_char (c : ascii) : string :=
  if Ascii.eqb c backslash then String backslash (String backslash EmptyString)
  else if Ascii.eqb c dquote then String backslash (String dquote EmptyString)
  else if Ascii.eqb c "010" then String backslash "n"
  else if Ascii.eqb c "013" then String backslash "r"
  else if Ascii.eqb c "009" then String backslash "t"
  else if Ascii.eqb c "008" then String backslash "b"
  else if Ascii.eqb c "012" then String backslash "f"
  else
    let n := nat_of_ascii c in
    if ((n <? 32) || (126 <? n))%nat then String backslash ("u" ++ hex4 c)
    else String c EmptyString.

Fixpoint dumps_chars (s : string) : string :=
  match s with
  | EmptyString => EmptyString
  | String c rest => dumps_char c ++ dumps_chars rest
  end.

Definition dumps_str (s : string) : string :=
  String dquote (dumps_chars s ++ String dquote EmptyString).

Fixpoint dumps (v : json) : string :=
  match v with
  | JNull => "null"
  | JBool true => "true"
  | JBool false => "false"
  | JNum n => string_of_Z n
  | JStr s => dumps_str s
  | JArr xs => "[" ++ join ", " (map dumps xs) ++ "]"
  | JObj kvs =>
      "{" ++ join ", " (map (fun kv => dumps_str (fst kv) ++ ": " ++ dumps (snd kv)) kvs)
          ++ "}"
  end.

End Py.

Import Py.

(** ** The data store

    The server reaches PostgreSQL through [psycopg2]; neither is code of the
    repository.  This module is the model of both that the tools run
    against: the tables [pages] and [posts], the connections with the
    inserts they have not committed yet, the SQL statements of [server.py]
    (the SELECT of lines 159-165 and 249-255, the INSERTs of lines 224-228
    and 301-305) and the calls the server makes on connections and cursors.

    A driver call can fail for reasons of its own, a lost connection or a
    statement the database refuses: [faults] is the oracle that decides it,
    one entry consumed per call. *)

Module Store.

Inductive table : Type := Pages | Posts.

(** A record of [pages] or of [posts].  [row_doc] is [pages.layout] or
    [posts.content]; [row_hero] is filled for pages and [row_published_at]
    for posts. *)
Record row : Type := mk_row {
  row_id : Z;
  row_slug : string;
  row_title : string;
  row_doc : string;
  row_hero : option string;
  row_meta : string;
  row_status : string;
  row_published_at : option Z;
  row_created_at : Z;
  row_updated_at : Z
}.

Inductive statement : Type :=
| SelectPublished (t : table)   (* SELECT .. WHERE _status = 'published'
                                   ORDER BY created_at DESC LIMIT %s *)
| InsertPage                    (* INSERT INTO pages .. RETURNING id, slug, title *)
| InsertPost.                   (* INSERT INTO posts .. RETURNING id, slug, title *)

Record conn : Type := mk_conn {
  conn_open : bool;
  conn_pending : list (table * row)
}.

(** The calls made on the driver, in the order they were made. *)
Inductive call : Type :=
| Connect (dsn : string)
| Cursor (h : nat)
| Execute (h : nat) (s : statement) (params : list json)
| Fetch (h : nat)
| Commit (h : nat)
| CursorClose (h : nat)
| Close (h : nat).

Record store : Type := mk_store {
  pages : list row;
  posts : list row;
  pages_seq : Z;
  posts_seq : Z;
  clock : Z;
  conns : list conn;
  faults : list (option string);
  log : list call
}.

Definition set_tables (ps qs : list row) (st : store) : store :=
  mk_store ps qs (pages_seq st) (posts_seq st) (clock st) (conns st)
           (faults st) (log st).

Definition set_seqs (p q : Z) (st : store) : store :=
  mk_store (pages st) (posts st) p q (clock st) (conns st) (faults st) (log st).

Definition set_clock (t : Z) (st : store) : store :=
  mk_store (pages st) (posts st) (pages_seq st) (posts_seq st) t (conns st)
           (faults st) (log st).

Definition set_conns (cs : list conn) (st : store) : store :=
  mk_store (pages st) (posts st) (pages_seq st) (posts_seq st) (clock st) cs
           (faults st) (log st).

Definition set_faults (fs : list (option string)) (st : store) : store :=
  mk_store (pages st) (posts st) (pages_seq st) (posts_seq st) (clock st)
           (conns st) fs (log st).

Definition set_log (l : list call) (st : store) : store :=
  mk_store (pages st) (posts st) (pages_seq st) (posts_seq st) (clock st)
           (conns st) (faults st) l.

(** A computation that reads and writes the store and may raise. *)
Definition M (A : Type) : Type := store -> outcome A * store.

Definition ret {A} (a : A) : M A := fun st => (Return a, st).

Definition raise {A} (e : exn) : M A := fun st => (Raise e, st).

Definition bind {A B} (m : M A) (k : A -> M B) : M B :=
  fun st =>
    match m st with
    | (Return a, st') => k a st'
    | (Raise e, st') => (Raise e, st')
    end.

(** [try: m except Exception as e: handler e]; what [m] did to the store
    before it raised stays done. *)
Definition try_except {A} (m : M A) (handler : exn -> M A) : M A :=
  fun st =>
    match m st with
    | (Return a, st') => (Return a, st')
    | (Raise e, st') => handler e st'
    end.

Definition lift {A} (o : outcome A) : M A := fun st => (o, st).

Definition table_rows (t : table) (st : store) : list row :=
  match t with
  | Pages => pages st
  | Posts => posts st
  end.

Fixpoint pending_of (t : table) (ps : list (table * row)) : list row :=
  match ps with
  | [] => []
  | (Pages, r) :: rest =>
      match t with Pages => r :: pending_of t rest | Posts => pending_of t rest end
  | (Posts, r) :: rest =>
      match t with Posts => r :: pending_of t rest | Pages => pending_of t rest end
  end.

Fixpoint replace_nth {A} (n : nat) (a : A) (l : list A) : list A :=
  match n, l with
  | _, [] => []
  | O, _ :: rest => a :: rest
  | S m, x :: rest => x :: replace_nth m a rest
  end.

(** Every driver call is logged, then asks the oracle whether it fails. *)
Definition driver_call (c : call) : M unit :=
  fun st =>
    let st1 := set_log (log st ++ [c])%list st in
    match faults st with
    | [] => (Return tt, st1)
    | None :: rest => (Return tt, set_faults rest st1)
    | Some msg :: rest => (Raise (DatabaseError msg), set_faults rest st1)
    end.

(** The connection behind handle [h], when it is open. *)
Definition open_conn (h : nat) : M conn :=
  fun st =>
    match nth_error (conns st) h with
    | Some c =>
        if conn_open c then (Return c, st)
        else (Raise (DatabaseError "connection already closed"), st)
    | None => (Raise (DatabaseError "connection already closed"), st)
    end.

Declare Scope py_scope.
Delimit Scope py_scope with py.
Bind Scope py_scope with M.

Notation "x <- m ;; k" := (bind m (fun x => k))
  (at level 61, m at next level, right associativity) : py_scope.
Notation "m ;; k" := (bind m (fun _ => k))
  (at level 61, right associativity) : py_scope.

Local Open Scope py_scope.

(** *** The statements *)

Definition published (r : row) : bool := String.eqb (row_status r) "published".

(** [ORDER BY created_at DESC]: insertion keeps rows of one instant in the
    order the table has them. *)
Fixpoint insert_desc (r : row) (rs : list row) : list row :=
  match rs with
  | [] => [r]
  | x :: rest =>
      if (row_created_at x <=? row_created_at r)%Z then r :: x :: rest
      else x :: insert_desc r rest
  end.

Definition order_desc (rs : list row) : list row := fold_right insert_desc [] rs.

(** The SELECT of [list_pages] and [list_posts] on the rows a connection
    sees: the published rows, most recent first, cut at the limit.  As in
    PostgreSQL, [LIMIT NULL] is no limit and a negative limit is an error;
    the model also refuses a limit that is not a number. *)
Definition select_published (rows : list row) (limit : json) : outcome (list row) :=
  let hits := order_desc (filter published rows) in
  match limit with
  | JNum n =>
      if (n <? 0)%Z then Raise (DatabaseError "LIMIT must not be negative")
      else Return (firstn (Z.to_nat n) hits)
  | JNull => Return hits
  | _ => Raise (DatabaseError ("invalid LIMIT of type " ++ type_name limit))
  end.

(** The columns an INSERT fills from its parameters hold text; the model
    refuses a parameter of another type. *)
Definition text_param (v : json) : outcome string :=
  match v with
  | JStr s => Return s
  | _ => Raise (DatabaseError ("invalid text parameter of type " ++ type_name v))
  end.

(** *** The driver: [psycopg2] connections and cursors *)

Record cursor : Type := mk_cursor {
  cur_conn : nat;
  cur_rows : list row
}.

(** [psycopg2.connect(dsn)] *)
Definition connect (dsn : string) : M nat :=
  driver_call (Connect dsn) ;;
  fun st =>
    (Return (length (conns st)),
     set_conns (conns st ++ [mk_conn true []])%list st).

(** [conn.cursor(..)] *)
Definition new_cursor (h : nat) : M cursor :=
  driver_call (Cursor h) ;;
  _ <- open_conn h ;;
  ret (mk_cursor h []).

(** An INSERT of the server: the row takes the next identifier of its
    table, status ['published'] and the time [NOW()]; it stays pending on
    the connection until the commit. *)
Definition insert_row (h : nat) (c : conn) (t : table)
    (slug title doc : string) (hero : option string) (meta : string) : M row :=
  fun st =>
    let now := clock st in
    let r :=
      match t with
      | Pages => mk_row (pages_seq st) slug title doc hero meta "published"
                        None now now
      | Posts => mk_row (posts_seq st) slug title doc hero meta "published"
                        (Some now) now now
      end in
    let st1 :=
      match t with
      | Pages => set_seqs (pages_seq st + 1) (posts_seq st) st
      | Posts => set_seqs (pages_seq st) (posts_seq st + 1) st
      end in
    (Return r,
     set_conns
       (replace_nth h (mk_conn true (conn_pending c ++ [(t, r)])%list) (conns st))
       (set_clock (now + 1) st1)).

(** [cur.execute(statement, params)] *)
Definition execute (cur : cursor) (s : statement) (params : list json) : M cursor :=
  let h := cur_conn cur in
  driver_call (Execute h s params) ;;
  c <- open_conn h ;;
  match s, params with
  | SelectPublished t, [limit] =>
      rows <- (fun st =>
                 (select_published
                    (table_rows t st ++ pending_of t (conn_pending c))%list limit,
                  st)) ;;
      ret (mk_cursor h rows)
  | InsertPage, [slug; title; layout; hero; meta] =>
      slug <- lift (text_param slug) ;;
      title <- lift (text_param title) ;;
      layout <- lift (text_param layout) ;;
      hero <- lift (text_param hero) ;;
      meta <- lift (text_param meta) ;;
      r <- insert_row h c Pages slug title layout (Some hero) meta ;;
      ret (mk_cursor h [r])
  | InsertPost, [slug; title; content; meta] =>
      slug <- lift (text_param slug) ;;
      title <- lift (text_param title) ;;
      content <- lift (text_param content) ;;
      meta <- lift (text_param meta) ;;
      r <- insert_row h c Posts slug title content None meta ;;
      ret (mk_cursor h [r])
  | _, _ => raise (DatabaseError "wrong number of parameters")
  end.

(** [cur.fetchall()] *)
Definition fetchall (cur : cursor) : M (list row) :=
  driver_call (Fetch (cur_conn cur)) ;;
  ret (cur_rows cur).

(** [cur.fetchone()] *)
Definition fetchone (cur : cursor) : M (option row) :=
  driver_call (Fetch (cur_conn cur)) ;;
  ret (hd_error (cur_rows cur)).

(** [conn.commit()]: the pending inserts reach the tables. *)
Definition commit (h : nat) : M unit :=
  driver_call (Commit h) ;;
  c <- open_conn h ;;
  fun st =>
    (Return tt,
     set_conns (replace_nth h (mk_conn true []) (conns st))
       (set_tables (pages st ++ pending_of Pages (conn_pending c))%list
                   (posts st ++ pending_of Posts (conn_pending c))%list st)).

(** [cur.close()] *)
Definition cursor_close (cur : cursor) : M unit :=
  driver_call (CursorClose (cur_conn cur)).

(** [conn.close()]: what is still pending is rolled back. *)
Definition close (h : nat) : M unit :=
  driver_call (Close h) ;;
  fun st => (Return tt, set_conns (replace_nth h (mk_conn false []) (conns st)) st).

End Store.

(** ** The server: [PayloadMCPServer] *)

Module Server.

Import Store.
Local Open Scope py_scope.

(** The object: its one attribute is the connection string read at start. *)
Record server : Type := mk_server { db_url : string }.

(** [{'content': [{'type': 'text', 'text': text}]}] *)
Definition text_content (text : string) : json :=
  JObj [("content", JArr [JObj [("type", JStr "text"); ("text", JStr text)]])].

Definition limit_schema (description : string) : json :=
  JObj [("type", JStr "object");
        ("properties",
         JObj [("limit",
                JObj [("type", JStr "number");
                      ("description", JStr description);
                      ("default", JNum 10)])])].

Definition create_schema (noun : string) : json :=
  JObj [("type", JStr "object");
        ("properties",
         JObj [("title", JObj [("type", JStr "string");
                               ("description", JStr (noun ++ " title"))]);
               ("slug", JObj [("type", JStr "string");
                              ("description", JStr "URL slug")]);
               ("content", JObj [("type", JStr "string");
                                 ("description", JStr (noun ++ " content"))])]);
        ("required", JArr [JStr "title"; JStr "slug"; JStr "content"])].

Definition tool (name description : string) (schema : json) : json :=
  JObj [("name", JStr name); ("description", JStr description);
        ("inputSchema", schema)].

(** The descriptors of the [tools/list] answer, in declaration order. *)
Definition tools : list json :=
  [ tool "list_pages" "List all pages in Payload CMS"
         (limit_schema "Number of pages to return");
    tool "create_page" "Create a new page with content" (create_schema "Page");
    tool "list_posts" "List all blog posts"
         (limit_schema "Number of posts to return");
    tool "create_post" "Create a new blog post" (create_schema "Post") ].

Definition text_node (text : json) : json := JObj [("text", text)].

Definition heading (title : json) : json :=
  JObj [("type", JStr "heading"); ("tag", JStr "h1");
        ("children", JArr [text_node title])].

Definition paragraph (content_text : json) : json :=
  JObj [("type", JStr "paragraph"); ("children", JArr [text_node content_text])].

Definition rich_text (children : list json) : json :=
  JObj [("root", JObj [("type", JStr "root"); ("children", JArr children)])].

Definition content_block (rich : json) : json :=
  JObj [("blockType", JStr "content");
        ("columns", JArr [JObj [("size", JStr "full"); ("richText", rich)]])].

(** The layout document of a page: one content block whose rich text is a
    heading with the title, then the body as one paragraph. *)
Definition page_layout (title content_text : json) : json :=
  JArr [content_block (rich_text [heading title; paragraph content_text])].

(** The rich text document of a post: the body as one paragraph. *)
Definition post_content (content_text : json) : json :=
  rich_text [paragraph content_text].

Definition meta_doc (title description : json) : json :=
  JObj [("title", title); ("description", description)].

(** What the loop of [list_pages] appends for one page. *)
Definition page_item (page : row) : string :=
  "- " ++ row_title page ++ nl
  ++ "  Slug: " ++ row_slug page ++ nl
  ++ "  URL: https://thechief.quest/" ++ row_slug page ++ nl ++ nl.

Definition page_entry (content : string) (page : row) : string :=
  content ++ page_item page.

(** What the loop of [list_posts] appends for one post. *)
Definition post_item (post : row) : string :=
  "- " ++ row_title post ++ nl
  ++ "  Slug: " ++ row_slug post ++ nl ++ nl.

Definition post_entry (content : string) (post : row) : string :=
  content ++ post_item post.

(** [execute_tool(self, tool_name, args)] *)
Definition execute_tool (self : server) (tool_name args : json) : M json :=
  if eq_str tool_name "list_pages" then
    conn <- connect (db_url self) ;;
    cur <- new_cursor conn ;;
    limit <- lift (get args "limit" (JNum 10)) ;;
    cur <- execute cur (SelectPublished Pages) [limit] ;;
    pages <- fetchall cur ;;
    cursor_close cur ;;
    close conn ;;
    let content :=
      fold_left page_entry pages ("Pages in Payload CMS:" ++ nl ++ nl) in
    ret (text_content content)
  else if eq_str tool_name "create_page" then
    title <- lift (subscript args "title") ;;
    slug <- lift (subscript args "slug") ;;
    content_text <- lift (subscript args "content") ;;
    let layout := dumps (page_layout title content_text) in
    let hero := dumps (JObj [("type", JStr "none")]) in
    description <- lift (slice_to content_text 160) ;;
    let meta := dumps (meta_doc title description) in
    conn <- connect (db_url self) ;;
    cur <- new_cursor conn ;;
    cur <- execute cur InsertPage [slug; title; JStr layout; JStr hero; JStr meta] ;;
    result <- fetchone cur ;;
    commit conn ;;
    cursor_close cur ;;
    close conn ;;
    ret (text_content
           ("Page created successfully!" ++ nl
            ++ "Title: " ++ str title ++ nl
            ++ "Slug: " ++ str slug ++ nl
            ++ "URL: https://thechief.quest/" ++ str slug))
  else if eq_str tool_name "list_posts" then
    conn <- connect (db_url self) ;;
    cur <- new_cursor conn ;;
    limit <- lift (get args "limit" (JNum 10)) ;;
    cur <- execute cur (SelectPublished Posts) [limit] ;;
    posts <- fetchall cur ;;
    cursor_close cur ;;
    close conn ;;
    let content :=
      fold_left post_entry posts ("Blog Posts in Payload CMS:" ++ nl ++ nl) in
    ret (text_content content)
  else if eq_str tool_name "create_post" then
    title <- lift (subscript args "title") ;;
    slug <- lift (subscript args "slug") ;;
    content_text <- lift (subscript args "content") ;;
    let rich_content := dumps (post_content content_text) in
    description <- lift (slice_to content_text 160) ;;
    let meta := dumps (meta_doc title description) in
    conn <- connect (db_url self) ;;
    cur <- new_cursor conn ;;
    cur <- execute cur InsertPost [slug; title; JStr rich_content; JStr meta] ;;
    result <- fetchone cur ;;
    commit conn ;;
    cursor_close cur ;;
    close conn ;;
    ret (text_content
           ("Post created successfully!" ++ nl
            ++ "Title: " ++ str title ++ nl
            ++ "Slug: " ++ str slug))
  else
    ret (text_content ("Unknown tool: " ++ str tool_name)).

Definition result_response (request_id result : json) : json :=
  JObj [("jsonrpc", JStr "2.0"); ("id", request_id); ("result", result)].

Definition error_response (request_id : json) (code : Z) (message : string) : json :=
  JObj [("jsonrpc", JStr "2.0"); ("id", request_id);
        ("error", JObj [("code", JNum code); ("message", JStr message)])].

(** [handle_request(self, request)] *)
Definition handle_request (self : server) (request : json) : M json :=
  method <- lift (get request "method" (JStr "")) ;;
  request_id <- lift (get request "id" JNull) ;;
  if eq_str method "initialize" then
    ret (result_response request_id
           (JObj [("protocolVersion", JStr "1.0.0");
                  ("capabilities", JObj [("tools", JObj [])]);
                  ("serverInfo",
                   JObj [("name", JStr "payload-content-manager");
                         ("version", JStr "1.0.0")])]))
  else if eq_str method "tools/list" then
    ret (result_response request_id (JObj [("tools", JArr tools)]))
  else if eq_str method "tools/call" then
    params <- lift (subscript request "params") ;;
    tool_name <- lift (subscript params "name") ;;
    params <- lift (subscript request "params") ;;
    args <- lift (get params "arguments" (JObj [])) ;;
    try_except
      (result <- execute_tool self tool_name args ;;
       ret (result_response request_id result))
      (fun e => ret (error_response request_id (-32603) (exn_str e)))
  else
    ret (error_response request_id (-32601) ("Method not found: " ++ str method)).

End Server.

(** ** The stdio transport: [PayloadMCPServer.run] *)

Module Stdio.

Import Store Server.

(** The process: what is left to read on standard input, what was written
    to the two output streams, the store, and whether the loop is still
    running. *)
Record process : Type := mk_process {
  stdin : string;
  stdout : string;
  stderr : string;
  db : store;
  running : bool
}.

(** [sys.stdin.readline()]: the next line with its newline, or what is left
    when no newline follows; the empty string at the end of input. *)
Fixpoint readline (input : string) : string * string :=
  match input with
  | EmptyString => (EmptyString, EmptyString)
  | String c rest =>
      if Ascii.eqb c "010" then (String c EmptyString, rest)
      else let (line, rest') := readline rest in (String c line, rest')
  end.

(** [print(text, file=stream)] *)
Definition print (text stream : string) : string := stream ++ text ++ nl.

Section Loop.

(** [json.loads], the parser of the standard library. *)
Variable loads : string -> outcome json.

Variable self : server.

(** One turn of the [while True] loop. *)
Definition iteration (p : process) : process :=
  let (line, rest) := readline (stdin p) in
  if String.eqb line EmptyString then
    mk_process rest (stdout p) (stderr p) (db p) false
  else
    match loads line with
    | Raise e =>
        mk_process rest (stdout p) (print ("Error: " ++ exn_str e) (stderr p))
                   (db p) true
    | Return request =>
        match handle_request self request (db p) with
        | (Return response, db') =>
            mk_process rest (print (dumps response) (stdout p)) (stderr p) db' true
        | (Raise e, db') =>
            mk_process rest (stdout p) (print ("Error: " ++ exn_str e) (stderr p))
                       db' true
        end
    end.

Fixpoint loop (turns : nat) (p : process) : process :=
  match turns with
  | O => p
  | S n => if running p then loop n (iteration p) else p
  end.

(** The state in which the loop is entered. *)
Definition start (input : string) (st : store) : process :=
  mk_process input EmptyString
             (print "Payload Content MCP Server starting..." EmptyString) st true.

(** [run(self)]: every turn but the last consumes a character, so one turn
    more than the length of the input ends the loop. *)
Definition run (input : string) (st : store) : process :=
  loop (S (String.length input)) (start input st).

End Loop.

Fixpoint count_char (c : ascii) (s : string) : nat :=
  match s with
  | EmptyString => O
  | String a rest => (if Ascii.eqb a c then 1 else 0) + count_char c rest
  end.

(** The number of lines written to a stream. *)
Definition lines_written (stream : string) : nat := count_char "010" stream.

End Stdio.

(** ** The HTTP client: [PayloadMCPClient] *)

Module Client.

Record client : Type := mk_client {
  base_url : string;
  api_key : string;
  headers : list (string * string)
}.

(** [__init__(self, base_url, api_key)] *)
Definition init (base_url api_key : string) : client :=
  mk_client (base_url ++ "/api/plugin/mcp") api_key
            [("Authorization", "Bearer " ++ api_key);
             ("Content-Type", "application/json");
             ("Accept", "application/json, text/event-stream")].

(** [text.split(sep)] for a one-character separator. *)
Fixpoint split (sep : ascii) (text : string) : list string :=
  match text with
  | EmptyString => [EmptyString]
  | String c rest =>
      if Ascii.eqb c sep then EmptyString :: split sep rest
      else
        match split sep rest with
        | line :: lines => String c line :: lines
        | [] => [String c EmptyString]
        end
  end.

(** The request [_call_tool] builds. *)
Definition payload (tool_name : string) (arguments : json) : json :=
  JObj [("jsonrpc", JStr "2.0"); ("id", JNum 1); ("method", JStr "tools/call");
        ("params", JObj [("name", JStr tool_name); ("arguments", arguments)])].

Section Transport.

(** [requests.post(url, json=.., headers=..).text] and [json.loads]. *)
Variable post : string -> json -> list (string * string) -> outcome string.
Variable loads : string -> outcome json.

(** The [for] loop over the lines of the body. *)
Fixpoint first_data (lines : list string) : outcome json :=
  match lines with
  | [] => Return (JObj [("error", JStr "No valid response")])
  | line :: rest =>
      if String.prefix "data: " line then loads (drop 6 line)
      else first_data rest
  end.

(** [_call_tool(self, tool_name, arguments)] *)
Definition _call_tool (self : client) (tool_name : string) (arguments : json)
    : outcome json :=
  match post (base_url self) (payload tool_name arguments) (headers self) with
  | Raise e => Raise e
  | Return text => first_data (split "010" text)
  end.

Definition list_posts (self : client) (limit page : json) : outcome json :=
  _call_tool self "posts_list" (JObj [("limit", limit); ("page", page)]).

Definition get_post (self : client) (post_id : json) : outcome json :=
  _call_tool self "posts_get" (JObj [("id", post_id)]).

Definition create_post (self : client) (title content status : json) : outcome json :=
  _call_tool self "posts_create"
    (JObj [("data", JObj [("title", title); ("content", content);
                          ("status", status)])]).

Definition update_post (self : client) (post_id : json) (kwargs : dict) : outcome json :=
  _call_tool self "posts_update" (JObj [("id", post_id); ("data", JObj kwargs)]).

Definition delete_post (self : client) (post_id : json) : outcome json :=
  _call_tool self "posts_delete" (JObj [("id", post_id)]).

Definition list_pages (self : client) (limit : json) : outcome json :=
  _call_tool self "pages_list" (JObj [("limit", limit)]).

Definition create_page (self : client) (title content : json) : outcome json :=
  _call_tool self "pages_create"
    (JObj [("data", JObj [("title", title); ("content", content)])]).

Definition list_categories (self : client) (limit : json) : outcome json :=
  _call_tool self "category_list" (JObj [("limit", limit)]).

Definition create_category (self : client) (title slug : json) : outcome json :=
  let data := [("title", title)] in
  let data := if truthy slug then (data ++ [("slug", slug)])%list else data in
  _call_tool self "category_create" (JObj [("data", JObj data)]).

(** A call of one of the wrapper methods, with its arguments. *)
Inductive method_call : Type :=
| ListPosts (limit page : json)
| GetPost (post_id : json)
| CreatePost (title content status : json)
| UpdatePost (post_id : json) (kwargs : dict)
| DeletePost (post_id : json)
| ListPages (limit : json)
| CreatePage (title content : json)
| ListCategories (limit : json)
| CreateCategory (title slug : json).

Definition invoke (self : client) (c : method_call) : outcome json :=
  match c with
  | ListPosts limit page => list_posts self limit page
  | GetPost post_id => get_post self post_id
  | CreatePost title content status => create_post self title content status
  | UpdatePost post_id kwargs => update_post self post_id kwargs
  | DeletePost post_id => delete_post self post_id
  | ListPages limit => list_pages self limit
  | CreatePage title content => create_page self title content
  | ListCategories limit => list_categories self limit
  | CreateCategory title slug => create_category self title slug
  end.

End Transport.

End Client.

(** ** A parser to run the transports on

    [json.loads] is a parameter of the two transports.  To run them on
    concrete lines the closed instances use this parser of the fragment of
    JSON without fractions, exponents and [\u] escapes; its error texts are
    abridged. *)

Module Parser.

Definition is_space (c : ascii) : bool :=
  Ascii.eqb c " " || Ascii.eqb c "009" || Ascii.eqb c "010" || Ascii.eqb c "013".

Fixpoint skip_space (s : string) : string :=
  match s with
  | EmptyString => EmptyString
  | String c rest => if is_space c then skip_space rest else s
  end.

Definition digit (c : ascii) : option Z :=
  let n := nat_of_ascii c in
  if ((48 <=? n) && (n <=? 57))%nat then Some (Z.of_nat (n - 48)) else None.

Fixpoint digits (acc : Z) (s : string) : Z * string :=
  match s with
  | EmptyString => (acc, EmptyString)
  | String c rest =>
      match digit c with
      | Some d => digits (10 * acc + d) rest
      | None => (acc, s)
      end
  end.

Definition unescape (c : ascii) : option ascii :=
  if Ascii.eqb c dquote then Some dquote
  else if Ascii.eqb c backslash then Some backslash
  else if Ascii.eqb c "/" then Some "/"%char
  else if Ascii.eqb c "n" then Some "010"%char
  else if Ascii.eqb c "r" then Some "013"%char
  else if Ascii.eqb c "t" then Some "009"%char
  else if Ascii.eqb c "b" then Some "008"%char
  else if Ascii.eqb c "f" then Some "012"%char
  else None.

(** The characters of a string literal, after its opening quote. *)
Fixpoint chars (s : string) : option (string * string) :=
  match s with
  | EmptyString => None
  | String c rest =>
      if Ascii.eqb c dquote then Some (EmptyString, rest)
      else if Ascii.eqb c backslash then
        match rest with
        | EmptyString => None
        | String e rest' =>
            match unescape e, chars rest' with
            | Some c', Some (text, rest'') => Some (String c' text, rest'')
            | _, _ => None
            end
        end
      else if (nat_of_ascii c <? 32)%nat then None
      else
        match chars rest with
        | Some (text, rest') => Some (String c text, rest')
        | None => None
        end
  end.

(** [d[k] = v] *)
Fixpoint put (k : string) (v : json) (d : dict) : dict :=
  match d with
  | [] => [(k, v)]
  | (k', v') :: rest =>
      if String.eqb k k' then (k, v) :: rest else (k', v') :: put k v rest
  end.

Definition literal (word : string) (v : json) (s : string) : option (json * string) :=
  if String.prefix word s then Some (v, drop (String.length word) s) else None.

Fixpoint value (fuel : nat) (s : string) {struct fuel} : option (json * string) :=
  match fuel with
  | O => None
  | S fuel' =>
      match skip_space s with
      | EmptyString => None
      | String c rest =>
          if Ascii.eqb c dquote then
            match chars rest with
            | Some (text, rest') => Some (JStr text, rest')
            | None => None
            end
          else if Ascii.eqb c "[" then
            match skip_space rest with
            | String "]" rest' => Some (JArr [], rest')
            | _ =>
                match elements fuel' rest with
                | Some (xs, rest') => Some (JArr xs, rest')
                | None => None
                end
            end
          else if Ascii.eqb c "{" then
            match skip_space rest with
            | String "}" rest' => Some (JObj [], rest')
            | _ =>
                match members fuel' [] rest with
                | Some (kvs, rest') => Some (JObj kvs, rest')
                | None => None
                end
            end
          else if Ascii.eqb c "-" then
            match rest with
            | String d _ =>
                match digit d with
                | Some _ => let (n, rest') := digits 0 rest in Some (JNum (- n), rest')
                | None => None
                end
            | EmptyString => None
            end
          else
            match digit c with
            | Some _ => let (n, rest') := digits 0 (String c rest) in Some (JNum n, rest')
            | None =>
                match literal "null" JNull (String c rest) with
                | Some r => Some r
                | None =>
                    match literal "true" (JBool true) (String c rest) with
                    | Some r => Some r
                    | None => literal "false" (JBool false) (String c rest)
                    end
                end
            end
      end
  end

with elements (fuel : nat) (s : string) {struct fuel} : option (list json * string) :=
  match fuel with
  | O => None
  | S fuel' =>
      match value fuel' s with
      | None => None
      | Some (v, rest) =>
          match skip_space rest with
          | String "," rest' =>
              match elements fuel' rest' with
              | Some (vs, rest'') => Some (v :: vs, rest'')
              | None => None
              end
          | String "]" rest' => Some ([v], rest')
          | _ => None
          end
      end
  end

with members (fuel : nat) (seen : dict) (s : string) {struct fuel}
    : option (dict * string) :=
  match fuel with
  | O => None
  | S fuel' =>
      match skip_space s with
      | EmptyString => None
      | String c rest =>
          if Ascii.eqb c dquote then
            match chars rest with
            | None => None
            | Some (k, rest1) =>
                match skip_space rest1 with
                | String ":" rest2 =>
                    match value fuel' rest2 with
                    | None => None
                    | Some (v, rest3) =>
                        match skip_space rest3 with
                        | String "," rest4 => members fuel' (put k v seen) rest4
                        | String "}" rest4 => Some (put k v seen, rest4)
                        | _ => None
                        end
                    end
                | _ => None
                end
            end
          else None
      end
  end.

Definition loads (s : string) : outcome json :=
  match value (2 * String.length s + 2) s with
  | Some (v, rest) =>
      match skip_space rest with
      | EmptyString => Return v
      | _ => Raise (JSONDecodeError "Extra data")
      end
  | None => Raise (JSONDecodeError "Expecting value")
  end.

End Parser.

(** * Specification

    The vocabulary of the properties: how responses are read, what it means
    for a run to return, the shapes a store can be left in, and the sample
    data of the closed instances. *)

Import Store Server Stdio Client.

(** The member [k] of an object, when it has one. *)
Definition field (k : string) (v : json) : option json :=
  match v with
  | JObj kvs => assoc k kvs
  | _ => None
  end.

(** The names under which [tools/list] registers the tools. *)
Definition registered_names : list string :=
  flat_map (fun t => match field "name" t with
                     | Some (JStr name) => [name]
                     | _ => []
                     end) tools.

(** A server, an empty store and a [tools/call] request to run examples on. *)
Module Demo.

Definition self : server := mk_server "postgresql://localhost/payload".

(** An empty store on which no driver call fails. *)
Definition empty : store := mk_store [] [] 1 1 0 [] [] [].

Definition call (id : Z) (name : string) (arguments : json) : dict :=
  [("jsonrpc", JStr "2.0"); ("id", JNum id); ("method", JStr "tools/call");
   ("params", JObj [("name", JStr name); ("arguments", arguments)])].

End Demo.



(** [m], started in [st], returns [a] and leaves the store [st']. *)
Definition returns {A} (m : M A) (st : store) (a : A) (st' : store) : Prop :=
  m st = (Return a, st').

(** The store after a driver call that did not fail. *)
Definition called (c : call) (st : store) : store :=
  set_faults (tl (faults st)) (set_log (log st ++ [c])%list st).

(** The driver calls of an invocation that reads table [t]. *)
Definition read_calls (dsn : string) (h : nat) (t : table) (limit : json) : list call :=
  [Connect dsn; Cursor h; Execute h (SelectPublished t) [limit];
   Fetch h; CursorClose h; Close h].


(** The first lines of the two listings. *)
Definition pages_header : string := "Pages in Payload CMS:" ++ nl ++ nl.

Definition posts_header : string := "Blog Posts in Payload CMS:" ++ nl ++ nl.

(** The record [create_page] inserts. *)
Definition page_row (st : store) (slug title : string) (content_text description : json)
    : row :=
  mk_row (pages_seq st) slug title
         (dumps (page_layout (JStr title) content_text))
         (Some (dumps (JObj [("type", JStr "none")])))
         (dumps (meta_doc (JStr title) description))
         "published" None (clock st) (clock st).




(** The store of the listing example. *)
Module Listing.

Definition page (id : Z) (slug title status : string) (created : Z) : row :=
  mk_row id slug title "[]" (Some "{}") "{}" status None created created.

(** Five published pages and a draft, not in order of creation. *)
Definition six_pages : store :=
  mk_store [ page 1 "a" "A" "published" 10;
             page 2 "b" "B" "published" 50;
             page 3 "c" "C" "draft" 60;
             page 4 "d" "D" "published" 30;
             page 5 "e" "E" "published" 40;
             page 6 "f" "F" "published" 20 ]
           [] 7 1 100 [] [] [].

End Listing.






(** A request to list the pages of a store that fails under it. *)
Module Outage.

(** A store whose third driver call fails: the connection and the cursor
    are obtained, the statement is not carried out. *)
Definition store : Store.store :=
  mk_store [] [] 1 1 0 [] [None; None; Some "server closed the connection unexpectedly"] [].

Definition request : json := JObj (Demo.call 3 "list_pages" (JObj [])).

End Outage.

(** A JSON-RPC response that reports success: a result and no error. *)
Definition is_success (response : json) : bool :=
  match field "result" response, field "error" response with
  | Some _, None => true
  | _, _ => false
  end.

(** No line of the body begins with the prefix of a data frame. *)
Definition no_data_line (text : string) : Prop :=
  forall line, In line (split "010" text) -> String.prefix "data: " line = false.

(** The tool names the wrapper methods send. *)
Definition client_tool_names : list string :=
  ["posts_list"; "posts_get"; "posts_create"; "posts_update"; "posts_delete";
   "pages_list"; "pages_create"; "category_list"; "category_create"].

(** Induction on a JSON value, with the property known for what an array or
    an object holds. *)
Fixpoint json_nested_ind (P : json -> Prop)
    (Hnull : P JNull) (Hbool : forall b, P (JBool b)) (Hnum : forall n, P (JNum n))
    (Hstr : forall s, P (JStr s))
    (Harr : forall xs, Forall P xs -> P (JArr xs))
    (Hobj : forall kvs, Forall (fun kv => P (snd kv)) kvs -> P (JObj kvs))
    (v : json) {struct v} : P v :=
  match v with
  | JNull => Hnull
  | JBool b => Hbool b
  | JNum n => Hnum n
  | JStr s => Hstr s
  | JArr xs =>
      Harr xs
        ((fix all (l : list json) : Forall P l :=
            match l with
            | [] => Forall_nil P
            | x :: l' =>
                Forall_cons x
                  (json_nested_ind P Hnull Hbool Hnum Hstr Harr Hobj x) (all l')
            end) xs)
  | JObj kvs =>
      Hobj kvs
        ((fix all (l : dict) : Forall (fun kv => P (snd kv)) l :=
            match l with
            | [] => Forall_nil _
            | (k, x) :: l' =>
                Forall_cons (k, x)
                  (json_nested_ind P Hnull Hbool Hnum Hstr Harr Hobj x) (all l')
            end) kvs)
  end.

(** The text has no newline in it. *)
Definition one_line (s : string) : Prop := count_char "010" s = 0.

(** The two lines of the stdio example. *)
Module Session.

(** A line that is not JSON, then a [tools/list] request. *)
Definition bad : string := "{oops".

Definition request : dict :=
  [("jsonrpc", JStr "2.0"); ("id", JNum 1); ("method", JStr "tools/list")].

Definition good : string := dumps (JObj request).

End Session.

(** ** Invariants of the store *)

Definition is_published (r : row) : Prop := row_status r = "published".

(** What the connections hold uncommitted are published rows. *)
Definition pending_published (st : store) : Prop :=
  Forall (fun c => Forall (fun tr => is_published (snd tr)) (conn_pending c))
         (conns st).

(** The tables of [st'] are the tables of [st] with published rows added at
    their end: no row was removed or rewritten. *)
Definition grown (st st' : store) : Prop :=
  exists ps qs,
    pages st' = (pages st ++ ps)%list /\ posts st' = (posts st ++ qs)%list /\
    Forall is_published ps /\ Forall is_published qs.

(** The two tables are as they were. *)
Definition same_tables (st st' : store) : Prop :=
  pages st' = pages st /\ posts st' = posts st.

(** Whatever [m] does from a store where [I] holds, and whether it returns
    or raises, [I] holds afterwards, the stores are related by [R], and a
    returned value satisfies [Q]. *)
Definition keeps {A} (I : store -> Prop) (R : store -> store -> Prop)
    (Q : A -> Prop) (m : M A) : Prop :=
  forall st, I st ->
    I (snd (m st)) /\ R st (snd (m st)) /\
    match fst (m st) with
    | Return a => Q a
    | Raise _ => True
    end.

Definition anything {A} (a : A) : Prop := True.

Definition any_store (st : store) : Prop := True.

(** ** Reading the tool descriptors *)



(** The default a descriptor's schema gives for a property. *)
Definition schema_default (descriptor : json) (property : string) : option json :=
  match field "inputSchema" descriptor with
  | Some schema =>
      match field "properties" schema with
      | Some properties =>
          match field property properties with
          | Some entry => field "default" entry
          | None => None
          end
      | None => None
      end
  | None => None
  end.

(** The values [v[:n]] raises on. *)
Definition unsliceable (v : json) : bool :=
  match v with
  | JStr _ | JArr _ => false
  | _ => true
  end.

(** The three methods the dispatcher knows. *)
Definition known_method (method : json) : bool :=
  eq_str method "initialize" || eq_str method "tools/list" || eq_str method "tools/call".

(** A store with a published page of 2020 and a draft of 2021, and the same
    store without the draft. *)
Module Drafts.

Definition with_draft : store :=
  mk_store [ Listing.page 1 "a" "A" "published" 2020;
             Listing.page 2 "b" "B" "draft" 2021 ]
           [] 3 1 2022 [] [] [].

Definition without_draft : store :=
  mk_store [ Listing.page 1 "a" "A" "published" 2020 ] [] 3 1 2022 [] [] [].

End Drafts.

(** ** Inputs of the stdio loop *)

(** Every line of the input is ended by its newline. *)
Fixpoint complete (input : string) : bool :=
  match input with
  | EmptyString => true
  | String c rest =>
      match rest with
      | EmptyString => Ascii.eqb c "010"
      | String _ _ => complete rest
      end
  end.

(** The number of lines [readline] finds in the input. *)
Fixpoint input_lines (input : string) : nat :=
  match input with
  | EmptyString => 0
  | String c rest =>
      if Ascii.eqb c "010" then S (input_lines rest)
      else
        match rest with
        | EmptyString => 1
        | String _ _ => input_lines rest
        end
  end.

(** The banner [run] prints before it reads. *)
Definition banner : string := print "Payload Content MCP Server starting..." "".

(** The process with [out] and [err] put before what it has written. *)
Definition after (out err : string) (p : process) : process :=
  mk_process (stdin p) (out ++ stdout p) (err ++ stderr p) (db p) (running p).

(** ** Bodies of HTTP responses *)

(** The lines, each ended by a newline. *)
Definition unlines (lines : list string) : string :=
  fold_right (fun line text => line ++ nl ++ text) "" lines.

(** A line of an event stream that is not a data frame. *)
Definition other_line (line : string) : Prop :=
  contains_char "010" line = false /\ String.prefix "data: " line = false.

(** The transport that hands the request to a server working on store [st]
    and frames its response as one data line. *)
Definition framed (server : Server.server) (st : store)
    (url : string) (request : json) (headers : list (string * string))
    : outcome string :=
  match handle_request server request st with
  | (Return response, _) => Return ("data: " ++ dumps response ++ nl ++ nl)
  | (Raise e, _) => Raise e
  end.

(** * Properties *)

(** ** The dispatcher *)

Lemma registered_names_eq :
  registered_names = ["list_pages"; "create_page"; "list_posts"; "create_post"].
Proof. reflexivity. Qed.

Lemma eq_str_false (v : json) (lit : string) :
  v <> JStr lit -> eq_str v lit = false.
Proof.
  destruct v as [| | |s| |]; simpl; try reflexivity.
  intros Hne. apply String.eqb_neq. intros ->. apply Hne. reflexivity.
Qed.

Lemma eq_str_true (v : json) (lit : string) :
  eq_str v lit = true -> v = JStr lit.
Proof.
  destruct v as [| | |s| |]; simpl; try discriminate.
  intros H. apply String.eqb_eq in H. now subst.
Qed.

Lemma unregistered_eq_str (name : json) :
  (forall t, In t registered_names -> name <> JStr t) ->
  eq_str name "list_pages" = false /\ eq_str name "create_page" = false /\
  eq_str name "list_posts" = false /\ eq_str name "create_post" = false.
Proof.
  intros H. repeat split; apply eq_str_false, H; simpl; tauto.
Qed.

(** The executor on a name that is none of the four. *)
Lemma execute_unknown (self : server) (name args : json) (st : store) :
  (forall t, In t registered_names -> name <> JStr t) ->
  execute_tool self name args st
  = (Return (text_content ("Unknown tool: " ++ str name)), st).
Proof.
  intros H. destruct (unregistered_eq_str name H) as (H1 & H2 & H3 & H4).
  unfold execute_tool. rewrite H1, H2, H3, H4. reflexivity.
Qed.

(** C1: a [tools/call] request whose [params.name] is not a registered tool
    is answered with a result and no error; the result's content is one
    text block reading "Unknown tool: " followed by the name, and the store
    is left as it was. *)
Theorem unknown_tool_is_soft_miss :
  forall (self : server) (request params : dict) (name : json) (st : store),
    assoc "method" request = Some (JStr "tools/call") ->
    assoc "params" request = Some (JObj params) ->
    assoc "name" params = Some name ->
    (forall t, In t registered_names -> name <> JStr t) ->
    exists response result block,
      handle_request self (JObj request) st = (Return response, st) /\
      field "error" response = None /\
      field "result" response = Some result /\
      field "content" result = Some (JArr [block]) /\
      field "type" block = Some (JStr "text") /\
      field "text" block = Some (JStr ("Unknown tool: " ++ str name)).
Proof.
  intros self request params name st Hm Hp Hn Hunk.
  unfold handle_request, bind, lift, get, subscript, try_except.
  rewrite Hm, Hp, Hn. cbn [eq_str String.eqb Ascii.eqb Bool.eqb].
  destruct (assoc "id" request) as [request_id|];
    destruct (assoc "arguments" params) as [args|];
    rewrite (execute_unknown self name _ st Hunk);
    eexists _, _, _; (split; [reflexivity | cbn; repeat split; reflexivity]).
Qed.

Lemma unknown_tool_is_soft_miss_witness :
  exists response result block,
    handle_request Demo.self (JObj (Demo.call 5 "bogus_tool" (JObj []))) Demo.empty
    = (Return response, Demo.empty) /\
    field "error" response = None /\
    field "result" response = Some result /\
    field "content" result = Some (JArr [block]) /\
    field "type" block = Some (JStr "text") /\
    field "text" block = Some (JStr "Unknown tool: bogus_tool").
Proof.
  apply (unknown_tool_is_soft_miss Demo.self (Demo.call 5 "bogus_tool" (JObj []))
           [("name", JStr "bogus_tool"); ("arguments", JObj [])]
           (JStr "bogus_tool") Demo.empty).
  - reflexivity.
  - reflexivity.
  - reflexivity.
  - intros t Hin. simpl in Hin.
    destruct Hin as [<-|[<-|[<-|[<-|[]]]]]; discriminate.
Defined.

(** C9: a request whose method is none of [initialize], [tools/list] and
    [tools/call] is answered with an error of code -32601 whose message is
    "Method not found: " followed by the method; there is no result. *)
Theorem unknown_method_not_found :
  forall (self : server) (request : dict) (method : json) (st : store),
    get (JObj request) "method" (JStr "") = Return method ->
    method <> JStr "initialize" ->
    method <> JStr "tools/list" ->
    method <> JStr "tools/call" ->
    exists response,
      handle_request self (JObj request) st = (Return response, st) /\
      field "result" response = None /\
      field "error" response
      = Some (JObj [("code", JNum (-32601));
                    ("message", JStr ("Method not found: " ++ str method))]).
Proof.
  intros self request method st Hget H1 H2 H3.
  unfold handle_request, bind. rewrite Hget. unfold lift at 1.
  rewrite (eq_str_false _ _ H1), (eq_str_false _ _ H2), (eq_str_false _ _ H3).
  unfold lift, get. destruct (assoc "id" request) as [request_id|];
    eexists; (split; [reflexivity | split; reflexivity]).
Qed.

Lemma unknown_method_not_found_witness :
  exists response,
    handle_request Demo.self
      (JObj [("jsonrpc", JStr "2.0"); ("id", JNum 2); ("method", JStr "resources/list")])
      Demo.empty
    = (Return response, Demo.empty) /\
    field "result" response = None /\
    field "error" response
    = Some (JObj [("code", JNum (-32601));
                  ("message", JStr "Method not found: resources/list")]).
Proof.
  apply (unknown_method_not_found Demo.self
           [("jsonrpc", JStr "2.0"); ("id", JNum 2); ("method", JStr "resources/list")]
           (JStr "resources/list") Demo.empty);
    [reflexivity | discriminate | discriminate | discriminate].
Defined.

(** ** The identifier of the response *)

(** Whatever the executor does, the guarded call of the dispatcher answers. *)
Lemma guarded_call_answers (self : server) (request_id name args : json) (st : store) :
  exists response st',
    try_except
      (bind (execute_tool self name args)
            (fun result => ret (result_response request_id result)))
      (fun e => ret (error_response request_id (-32603) (exn_str e))) st
    = (Return response, st') /\
    field "id" response = Some request_id.
Proof.
  unfold try_except, bind.
  destruct (execute_tool self name args st) as [[result|e] st'];
    eexists _, _; (split; [reflexivity | reflexivity]).
Qed.




(** ** Arguments are read before the store is touched *)

(** [create_page] without one of its three arguments raises [KeyError]
    with the store as it was. *)
Lemma create_page_missing_raises (self : server) (args : dict) (st : store) :
  assoc "title" args = None \/ assoc "slug" args = None \/ assoc "content" args = None ->
  exists key,
    execute_tool self (JStr "create_page") (JObj args) st = (Raise (KeyError key), st).
Proof.
  intros H. unfold execute_tool. cbn [eq_str String.eqb Ascii.eqb Bool.eqb].
  unfold bind, lift, subscript.
  destruct (assoc "title" args) as [title|].
  2:{ eexists; reflexivity. }
  destruct (assoc "slug" args) as [slug|].
  2:{ eexists; reflexivity. }
  destruct (assoc "content" args) as [content_text|].
  2:{ eexists; reflexivity. }
  destruct H as [H|[H|H]]; discriminate.
Qed.

(** C3: a [tools/call] of [create_page] whose arguments lack [title], [slug]
    or [content] is answered with an error of code -32603, and the store,
    with its log of driver calls and its connections, is exactly as before:
    nothing was connected and nothing inserted. *)
Theorem create_page_missing_field :
  forall (self : server) (request params args : dict) (st : store),
    assoc "method" request = Some (JStr "tools/call") ->
    assoc "params" request = Some (JObj params) ->
    assoc "name" params = Some (JStr "create_page") ->
    get (JObj params) "arguments" (JObj []) = Return (JObj args) ->
    assoc "title" args = None \/ assoc "slug" args = None \/ assoc "content" args = None ->
    exists response message,
      handle_request self (JObj request) st = (Return response, st) /\
      field "result" response = None /\
      field "error" response
      = Some (JObj [("code", JNum (-32603)); ("message", JStr message)]).
Proof.
  intros self request params args st Hm Hp Hn Hargs Hmissing.
  destruct (create_page_missing_raises self args st Hmissing) as (key & Hraise).
  unfold handle_request, bind, lift, get, subscript, try_except.
  unfold get in Hargs.
  rewrite Hm, Hp, Hn. cbn [eq_str String.eqb Ascii.eqb Bool.eqb].
  assert (Hargs' : match assoc "arguments" params with
                   | Some v => Return v
                   | None => Return (JObj [])
                   end = Return (JObj args)) by exact Hargs.
  rewrite Hargs'.
  destruct (assoc "id" request) as [request_id|];
    rewrite Hraise; eexists _, _; (split; [reflexivity | split; reflexivity]).
Qed.

Lemma create_page_missing_field_witness :
  exists response message,
    handle_request Demo.self
      (JObj (Demo.call 4 "create_page"
               (JObj [("title", JStr "T"); ("content", JStr "C")])))
      Demo.empty
    = (Return response, Demo.empty) /\
    field "result" response = None /\
    field "error" response
    = Some (JObj [("code", JNum (-32603)); ("message", JStr message)]).
Proof.
  apply (create_page_missing_field Demo.self
           (Demo.call 4 "create_page"
              (JObj [("title", JStr "T"); ("content", JStr "C")]))
           [("name", JStr "create_page");
            ("arguments", JObj [("title", JStr "T"); ("content", JStr "C")])]
           [("title", JStr "T"); ("content", JStr "C")] Demo.empty);
    [reflexivity | reflexivity | reflexivity | reflexivity | right; left; reflexivity].
Defined.

(** ** Runs that return *)

Section Returns.

Context {A B : Type}.

Lemma returns_bind (m : M A) (k : A -> M B) st b st2 :
  returns (bind m k) st b st2 ->
  exists a st1, returns m st a st1 /\ returns (k a) st1 b st2.
Proof.
  unfold returns, bind. destruct (m st) as [[a|e] st1]; intros H.
  - exists a, st1. split; [reflexivity | exact H].
  - discriminate.
Qed.

Lemma returns_ret (a b : A) st st' :
  returns (ret a) st b st' -> b = a /\ st' = st.
Proof. unfold returns, ret. intros H. inversion H. split; reflexivity. Qed.

Lemma returns_lift (o : outcome A) st a st' :
  returns (lift o) st a st' -> o = Return a /\ st' = st.
Proof. unfold returns, lift. intros H. inversion H. split; reflexivity. Qed.

End Returns.

Lemma returns_driver_call (c : call) st u st' :
  returns (driver_call c) st u st' ->
  hd None (faults st) = None /\ st' = called c st.
Proof.
  unfold returns, driver_call, called. destruct st as [ps qs pseq qseq clk cs fs lg].
  cbn. destruct fs as [|[msg|] fs]; cbn; intros H; inversion H; split; reflexivity.
Qed.

Lemma returns_open_conn (h : nat) st c st' :
  returns (open_conn h) st c st' ->
  nth_error (conns st) h = Some c /\ conn_open c = true /\ st' = st.
Proof.
  unfold returns, open_conn. destruct (nth_error (conns st) h) as [c0|]; [|discriminate].
  destruct (conn_open c0) eqn:E; [|discriminate].
  intros H. inversion H. subst. repeat split; assumption.
Qed.

Lemma nth_error_fresh {X} (l : list X) (x : X) :
  nth_error (l ++ [x]) (length l) = Some x.
Proof. induction l as [|y l IH]; simpl; [reflexivity | exact IH]. Qed.

Lemma replace_nth_fresh {X} (l : list X) (x y : X) :
  replace_nth (length l) y (l ++ [x]) = (l ++ [y])%list.
Proof. induction l as [|z l IH]; simpl; [reflexivity | now rewrite IH]. Qed.

Lemma pending_of_nil (t : table) : pending_of t [] = [].
Proof. destruct t; reflexivity. Qed.

(** Inversion of a run that returned, one call at a time. *)
Ltac invert_returns :=
  repeat match goal with
    | H : returns (bind _ _) _ _ _ |- _ =>
        let a := fresh "a" in let st1 := fresh "st" in
        let H1 := fresh "Hstep" in let H2 := fresh "Hrest" in
        apply returns_bind in H; destruct H as (a & st1 & H1 & H2)
    | H : returns (ret _) _ _ _ |- _ =>
        apply returns_ret in H; destruct H as [? ?]; subst
    | H : returns (lift _) _ _ _ |- _ =>
        apply returns_lift in H; destruct H as [? ?]; subst
    | H : returns (driver_call _) _ _ _ |- _ =>
        apply returns_driver_call in H; destruct H as [? ?]; subst
    | H : returns (open_conn _) _ _ _ |- _ =>
        apply returns_open_conn in H; destruct H as (? & ? & ?); subst
    | H : returns (fun _ => _) _ _ _ |- _ =>
        unfold returns in H; cbv beta in H; injection H as ? ?; subst
    end.

(** Projections of a store built by the setters. *)
Ltac store_simpl :=
  cbn [called set_tables set_seqs set_clock set_conns set_faults set_log
       pages posts pages_seq posts_seq clock conns faults log
       cur_conn cur_rows conn_open conn_pending table_rows] in *.

Lemma text_param_inv (v : json) (s : string) :
  text_param v = Return s -> v = JStr s.
Proof. destruct v; simpl; intros H; inversion H; reflexivity. Qed.

(** The connection opened last is the one its handle reaches. *)
Ltac fresh_conn :=
  repeat (progress (
    store_simpl;
    repeat rewrite pending_of_nil in *;
    repeat rewrite app_nil_r in *;
    repeat rewrite replace_nth_fresh in *;
    cbn [app pending_of] in *;
    repeat match goal with
      | H : nth_error (_ ++ [_]) (length _) = Some _ |- _ =>
          rewrite nth_error_fresh in H; injection H as H; subst
      | H : text_param _ = Return _ |- _ => apply text_param_inv in H
      | H : JStr _ = JStr _ |- _ => injection H as H; subst
      | H : ?v = JStr _ |- _ => is_var v; subst v
      end)).

(** What [list_pages] did when it returned. *)
Lemma list_pages_returns (self : server) (args : json) st res st' :
  returns (execute_tool self (JStr "list_pages") args) st res st' ->
  exists limit rows,
    get args "limit" (JNum 10) = Return limit /\
    select_published (pages st) limit = Return rows /\
    res = text_content (fold_left page_entry rows pages_header) /\
    pages st' = pages st /\ posts st' = posts st /\
    conns st' = (conns st ++ [mk_conn false []])%list /\
    log st' = (log st ++ read_calls (db_url self) (length (conns st)) Pages limit)%list.
Proof.
  unfold execute_tool. cbn [eq_str String.eqb Ascii.eqb Bool.eqb].
  intros H. unfold connect, new_cursor, execute, fetchall, cursor_close, close in H.
  invert_returns. store_simpl. fresh_conn.
  eexists _, _. repeat split; try eassumption; try reflexivity.
  unfold read_calls. repeat rewrite <- app_assoc. reflexivity.
Qed.

(** What [list_posts] did when it returned. *)
Lemma list_posts_returns (self : server) (args : json) st res st' :
  returns (execute_tool self (JStr "list_posts") args) st res st' ->
  exists limit rows,
    get args "limit" (JNum 10) = Return limit /\
    select_published (posts st) limit = Return rows /\
    res = text_content (fold_left post_entry rows posts_header) /\
    pages st' = pages st /\ posts st' = posts st /\
    conns st' = (conns st ++ [mk_conn false []])%list /\
    log st' = (log st ++ read_calls (db_url self) (length (conns st)) Posts limit)%list.
Proof.
  unfold execute_tool. cbn [eq_str String.eqb Ascii.eqb Bool.eqb].
  intros H. unfold connect, new_cursor, execute, fetchall, cursor_close, close in H.
  invert_returns. store_simpl. fresh_conn.
  eexists _, _. repeat split; try eassumption; try reflexivity.
  unfold read_calls. repeat rewrite <- app_assoc. reflexivity.
Qed.



(** ** The listing: published records, most recent first *)

Section Ordering.







End Ordering.



Lemma append_nil_r (s : string) : s ++ "" = s.
Proof. induction s as [|c s IH]; simpl; [reflexivity | now rewrite IH]. Qed.

Lemma append_assoc (s t u : string) : (s ++ t) ++ u = s ++ t ++ u.
Proof. induction s as [|c s IH]; simpl; [reflexivity | now rewrite IH]. Qed.






(** The two most recent published pages of the six, newest first. *)
Example list_pages_limit_two :
  fst (execute_tool Demo.self (JStr "list_pages") (JObj [("limit", JNum 2)])
         Listing.six_pages)
  = Return (text_content
              (pages_header
               ++ "- B" ++ nl ++ "  Slug: b" ++ nl
               ++ "  URL: https://thechief.quest/b" ++ nl ++ nl
               ++ "- E" ++ nl ++ "  Slug: e" ++ nl
               ++ "  URL: https://thechief.quest/e" ++ nl ++ nl)).
Proof. vm_compute. reflexivity. Qed.

(** ** The records the write tools persist *)






(** The page a call with title "T", slug "t" and body "C" leaves in the
    empty store. *)
Example create_page_persists :
  pages (snd (execute_tool Demo.self (JStr "create_page")
                (JObj [("title", JStr "T"); ("slug", JStr "t"); ("content", JStr "C")])
                Demo.empty))
  = [page_row Demo.empty "t" "T" (JStr "C") (JStr "C")].
Proof. vm_compute. reflexivity. Qed.

(** ** Connections *)




Lemma returns_try_except {X} (m : M X) (handler : exn -> M X) st a st' :
  returns (try_except m handler) st a st' ->
  returns m st a st' \/
  exists e st1, m st = (Raise e, st1) /\ returns (handler e) st1 a st'.
Proof.
  unfold returns, try_except. destruct (m st) as [[x|e] st1]; intros H.
  - left. exact H.
  - right. exists e, st1. split; [reflexivity | exact H].
Qed.




(** The same loss without any fault of the store: arguments that are a list
    make [args.get] raise after the connection was opened. *)
Example connection_left_open_on_list_arguments :
  handle_request Demo.self (JObj (Demo.call 3 "list_pages" (JArr []))) Demo.empty
  = (Return (error_response (JNum 3) (-32603) "'list' object has no attribute 'get'"),
     mk_store [] [] 1 1 0 [mk_conn true []] []
       [Connect (db_url Demo.self); Cursor 0]).
Proof. vm_compute. reflexivity. Qed.

(** ** The client *)

Lemma first_data_none (loads : string -> outcome json) (lines : list string) :
  (forall line, In line lines -> String.prefix "data: " line = false) ->
  first_data loads lines = Return (JObj [("error", JStr "No valid response")]).
Proof.
  induction lines as [|line lines IH]; intros H; simpl.
  - reflexivity.
  - rewrite (H line (or_introl eq_refl)). apply IH.
    intros l Hl. apply H. right. exact Hl.
Qed.

(** C6: when the body of the HTTP response has no line that begins with
    "data: ", [_call_tool] hands its caller the object
    [{"error": "No valid response"}]: it has an error member and no result,
    so it is not a success, and it is neither empty nor [None]. *)
Theorem no_data_line_is_reported :
  forall (post : string -> json -> list (string * string) -> outcome string)
         (loads : string -> outcome json)
         (self : client) (tool_name : string) (arguments : json) (text : string),
    post (base_url self) (payload tool_name arguments) (headers self) = Return text ->
    no_data_line text ->
    exists failure,
      _call_tool post loads self tool_name arguments = Return failure /\
      field "error" failure = Some (JStr "No valid response") /\
      field "result" failure = None /\
      is_success failure = false /\
      failure <> JObj [] /\ failure <> JNull.
Proof.
  intros post loads self tool_name arguments text Hpost Hnone.
  exists (JObj [("error", JStr "No valid response")]).
  unfold _call_tool. rewrite Hpost. rewrite (first_data_none loads _ Hnone).
  repeat split; try reflexivity; discriminate.
Qed.

Example split_lines :
  split "010" ("event: ping" ++ nl ++ "data: {}" ++ nl)
  = ["event: ping"; "data: {}"; ""].
Proof. reflexivity. Qed.

Lemma no_data_line_is_reported_witness :
  exists failure,
    _call_tool (fun _ _ _ => Return ("event: ping" ++ nl ++ nl))
               (fun _ => Raise (JSONDecodeError "Expecting value"))
               (init "http://localhost:3000" "key") "posts_list" (JObj [])
    = Return failure /\
    field "error" failure = Some (JStr "No valid response") /\
    field "result" failure = None /\
    is_success failure = false /\
    failure <> JObj [] /\ failure <> JNull.
Proof.
  apply (no_data_line_is_reported
           (fun _ _ _ => Return ("event: ping" ++ nl ++ nl))
           (fun _ => Raise (JSONDecodeError "Expecting value"))
           (init "http://localhost:3000" "key") "posts_list" (JObj [])
           ("event: ping" ++ nl ++ nl)).
  - reflexivity.
  - intros line Hin. simpl in Hin.
    destruct Hin as [<-|[<-|[<-|[]]]]; reflexivity.
Defined.

(** What [tools/list] answers: the four descriptors, in declaration order. *)
Example tools_list_answer :
  handle_request Demo.self
    (JObj [("jsonrpc", JStr "2.0"); ("id", JNum 1); ("method", JStr "tools/list")])
    Demo.empty
  = (Return (result_response (JNum 1) (JObj [("tools", JArr tools)])), Demo.empty).
Proof. reflexivity. Qed.

(** C10: every wrapper method of the client calls [_call_tool] with one of
    its nine tool names; none of them is a name [tools/list] registers, and
    the request the call sends, handled by this server, is answered with the
    unknown-tool text while the store stays as it was. *)
Theorem client_tools_are_unknown :
  forall c : method_call,
    exists name arguments,
      (forall post loads self,
          invoke post loads self c = _call_tool post loads self name arguments) /\
      In name client_tool_names /\
      ~ In name registered_names /\
      (forall server st,
          handle_request server (payload name arguments) st
          = (Return (result_response (JNum 1)
                       (text_content ("Unknown tool: " ++ name))), st)).
Proof.
  intros c.
  destruct c; eexists _, _;
    (split; [intros; reflexivity |
     split; [simpl; tauto |
     split; [simpl; intuition discriminate | intros; reflexivity]]]).
Qed.

(** The client wired to this server: the request is handled in the empty
    store and the response comes back as one [data: ] line. *)
Example client_against_server :
  let post := fun (_ : string) (request : json) (_ : list (string * string)) =>
                match handle_request Demo.self request Demo.empty with
                | (Return response, _) => Return ("data: " ++ dumps response ++ nl ++ nl)
                | (Raise e, _) => Raise e
                end in
  invoke post Parser.loads (init "http://localhost:3000" "key")
         (ListPosts (JNum 10) (JNum 1))
  = Return (result_response (JNum 1) (text_content "Unknown tool: posts_list")).
Proof. vm_compute. reflexivity. Qed.

(** ** The stdio loop *)

Lemma readline_line (body rest : string) :
  contains_char "010" body = false ->
  readline (body ++ nl ++ rest) = (body ++ nl, rest).
Proof.
  change (nl ++ rest) with (String "010" rest). unfold nl.
  induction body as [|c body IH]; intros H.
  - reflexivity.
  - simpl in H |- *. destruct (Ascii.eqb c "010"); [discriminate|].
    rewrite (IH H). reflexivity.
Qed.

Lemma readline_last (body : string) :
  contains_char "010" body = false -> readline body = (body, "").
Proof.
  induction body as [|c body IH]; simpl; intros H.
  - reflexivity.
  - destruct (Ascii.eqb c "010"); [discriminate|].
    rewrite (IH H). reflexivity.
Qed.

Lemma readline_length (input : string) :
  String.length input
  = String.length (fst (readline input)) + String.length (snd (readline input)).
Proof.
  induction input as [|c input IH]; simpl; [reflexivity|].
  destruct (Ascii.eqb c "010"); simpl; [reflexivity|].
  destruct (readline input) as [line rest]. simpl in *. now rewrite IH.
Qed.

Lemma readline_empty (input : string) :
  fst (readline input) = "" -> input = "".
Proof.
  destruct input as [|c input]; simpl; [reflexivity|].
  destruct (Ascii.eqb c "010"); [discriminate|].
  destruct (readline input); discriminate.
Qed.

Lemma loop_stopped (loads : string -> outcome json) (self : server)
    (turns : nat) (p : process) :
  running p = false -> loop loads self turns p = p.
Proof. destruct turns; simpl; intros H; [reflexivity | now rewrite H]. Qed.

(** A turn that reads a line leaves less to read; a turn at the end of the
    input stops the loop. *)
Lemma iteration_progress (loads : string -> outcome json) (self : server) (p : process) :
  running (iteration loads self p) = false \/
  String.length (stdin (iteration loads self p)) < String.length (stdin p).
Proof.
  unfold iteration.
  pose proof (readline_length (stdin p)) as Hlen.
  pose proof (readline_empty (stdin p)) as Hempty.
  destruct (readline (stdin p)) as [line rest]. simpl in Hlen, Hempty.
  destruct (String.eqb line "") eqn:E.
  - left. reflexivity.
  - right. apply String.eqb_neq in E.
    assert (0 < String.length line) by (destruct line; [congruence | simpl; lia]).
    destruct (loads line) as [request|e]; [|simpl; lia].
    destruct (handle_request self request (db p)) as [[response|e] db']; simpl; lia.
Qed.

Lemma loop_terminates (loads : string -> outcome json) (self : server)
    (turns : nat) (p : process) :
  String.length (stdin p) < turns -> running (loop loads self turns p) = false.
Proof.
  revert p. induction turns as [|turns IH]; intros p Hlen; [lia|].
  simpl. destruct (running p) eqn:E; [|exact E].
  destruct (iteration_progress loads self p) as [Hstop|Hless].
  - rewrite loop_stopped; assumption.
  - apply IH. lia.
Qed.

(** [run] reaches the end of its loop on every input. *)
Lemma run_terminates (loads : string -> outcome json) (self : server)
    (input : string) (st : store) :
  running (run loads self input st) = false.
Proof. unfold run. apply loop_terminates. simpl. lia. Qed.

Lemma count_char_app (c : ascii) (s t : string) :
  count_char c (s ++ t) = count_char c s + count_char c t.
Proof. induction s as [|a s IH]; simpl; [reflexivity | rewrite IH; lia]. Qed.

Lemma string_length_app (s t : string) :
  String.length (s ++ t) = String.length s + String.length t.
Proof. induction s as [|a s IH]; simpl; [reflexivity | now rewrite IH]. Qed.

(** *** [json.dumps] writes no newline *)

Lemma one_line_app (s t : string) : one_line s -> one_line t -> one_line (s ++ t).
Proof. unfold one_line. rewrite count_char_app. lia. Qed.

Lemma digits_one_line (d : Decimal.uint) : one_line (NilEmpty.string_of_uint d).
Proof. unfold one_line. induction d; simpl; assumption || reflexivity. Qed.

Lemma string_of_uint_one_line (d : Decimal.uint) : one_line (NilZero.string_of_uint d).
Proof.
  unfold NilZero.string_of_uint. destruct d; try reflexivity;
    apply (digits_one_line (_ d)).
Qed.

Lemma string_of_Z_one_line (n : Z) : one_line (string_of_Z n).
Proof.
  unfold string_of_Z, NilZero.string_of_int.
  destruct (Z.to_int n) as [d|d].
  - apply string_of_uint_one_line.
  - unfold one_line. simpl. apply string_of_uint_one_line.
Qed.

Lemma dumps_char_one_line (c : ascii) : one_line (dumps_char c).
Proof.
  destruct c as [[] [] [] [] [] [] [] []]; vm_compute; reflexivity.
Qed.

Lemma dumps_str_one_line (s : string) : one_line (dumps_str s).
Proof.
  unfold dumps_str.
  change (String dquote (dumps_chars s ++ String dquote ""))
    with (String dquote "" ++ dumps_chars s ++ String dquote "").
  apply one_line_app; [reflexivity|]. apply one_line_app; [|reflexivity].
  induction s as [|c s IH]; simpl; [reflexivity|].
  apply one_line_app; [apply dumps_char_one_line | exact IH].
Qed.

Lemma join_one_line (sep : string) (parts : list string) :
  one_line sep -> Forall one_line parts -> one_line (join sep parts).
Proof.
  intros Hsep Hparts. induction Hparts as [|p parts Hp Hparts IH]; simpl.
  - reflexivity.
  - destruct parts as [|q parts]; [exact Hp|].
    apply one_line_app; [exact Hp|]. apply one_line_app; [exact Hsep | exact IH].
Qed.

Lemma dumps_one_line (v : json) : one_line (dumps v).
Proof.
  induction v as [|b|n|s|xs IH|kvs IH] using json_nested_ind.
  - reflexivity.
  - destruct b; reflexivity.
  - apply string_of_Z_one_line.
  - apply dumps_str_one_line.
  - cbn [dumps]. apply one_line_app; [reflexivity|].
    apply one_line_app; [|reflexivity].
    apply join_one_line; [reflexivity|].
    induction IH as [|x xs Hx _ IHxs]; simpl; constructor; assumption.
  - cbn [dumps]. apply one_line_app; [reflexivity|].
    apply one_line_app; [|reflexivity].
    apply join_one_line; [reflexivity|].
    induction IH as [|[k x] kvs Hx _ IHkvs]; simpl; constructor; [|assumption].
    apply one_line_app; [apply dumps_str_one_line|]. exact Hx.
Qed.

Lemma print_one_line (text : string) :
  one_line text -> lines_written (print text "") = 1.
Proof.
  unfold lines_written, print, one_line. intros H.
  simpl. rewrite count_char_app, H. reflexivity.
Qed.

Lemma line_not_empty (body : string) : String.eqb (body ++ nl) "" = false.
Proof. apply String.eqb_neq. destruct body; discriminate. Qed.

(** The last line of the input, with or without its newline. *)
Lemma readline_final (body eol : string) :
  contains_char "010" body = false ->
  eol = nl \/ (eol = "" /\ body <> "") ->
  readline (body ++ eol) = (body ++ eol, "") /\ String.eqb (body ++ eol) "" = false.
Proof.
  intros Hfree [->|[-> Hne]].
  - split; [|apply line_not_empty].
    rewrite <- (append_nil_r (body ++ nl)) at 1. rewrite append_assoc.
    apply readline_line, Hfree.
  - rewrite append_nil_r. split; [apply readline_last, Hfree|].
    apply String.eqb_neq, Hne.
Qed.

Lemma loop_three (loads : string -> outcome json) (self : server)
    (turns : nat) (p : process) :
  running p = true ->
  running (iteration loads self p) = true ->
  running (iteration loads self (iteration loads self p)) = true ->
  running (iteration loads self (iteration loads self (iteration loads self p))) = false ->
  2 < turns ->
  loop loads self turns p
  = iteration loads self (iteration loads self (iteration loads self p)).
Proof.
  intros H0 H1 H2 H3 Hturns.
  destruct turns as [|[|[|turns]]]; try lia.
  cbn [loop]. rewrite H0, H1, H2. apply loop_stopped, H3.
Qed.

(** C7: on an input made of a line that does not parse followed by a line
    that parses to a [tools/list] request, the first turn of the loop writes
    a diagnostic to the error stream and nothing to the output, the second
    writes the response to the request as the one line of the output, the
    loop is still running after each of them, and it stops at the third
    turn, at the end of the input; [run] ends in that state. *)
Theorem malformed_line_is_skipped :
  forall (loads : string -> outcome json) (self : server)
         (bad good eol : string) (e : exn) (request : dict) (st : store),
    contains_char "010" bad = false ->
    contains_char "010" good = false ->
    eol = nl \/ (eol = "" /\ good <> "") ->
    loads (bad ++ nl) = Raise e ->
    loads (good ++ eol) = Return (JObj request) ->
    assoc "method" request = Some (JStr "tools/list") ->
    exists id,
      get (JObj request) "id" JNull = Return id /\
      let input := bad ++ nl ++ good ++ eol in
      let answer := dumps (result_response id (JObj [("tools", JArr tools)])) in
      let started := print "Payload Content MCP Server starting..." "" in
      let diagnosed := print ("Error: " ++ exn_str e) started in
      let p1 := iteration loads self (start input st) in
      let p2 := iteration loads self p1 in
      let p3 := iteration loads self p2 in
      p1 = mk_process (good ++ eol) "" diagnosed st true /\
      p2 = mk_process "" (print answer "") diagnosed st true /\
      p3 = mk_process "" (print answer "") diagnosed st false /\
      run loads self input st = p3 /\
      lines_written (stdout p3) = 1.
Proof.
  intros loads self bad good eol e request st Hbad Hgood Heol Hraise Hparse Hm.
  destruct (readline_final good eol Hgood Heol) as [Hread Hne].
  assert (Hanswer : exists id,
             get (JObj request) "id" JNull = Return id /\
             handle_request self (JObj request) st
             = (Return (result_response id (JObj [("tools", JArr tools)])), st)).
  { unfold handle_request, bind, lift, get. rewrite Hm.
    destruct (assoc "id" request) as [id|]; eexists; split; reflexivity. }
  destruct Hanswer as (id & Hid & Hrun). exists id. split; [exact Hid|].
  cbv zeta.
  assert (H1 : iteration loads self (start (bad ++ nl ++ good ++ eol) st)
               = mk_process (good ++ eol) ""
                   (print ("Error: " ++ exn_str e)
                      (print "Payload Content MCP Server starting..." "")) st true).
  { unfold iteration, start. cbn [stdin stdout stderr db].
    rewrite (readline_line bad (good ++ eol) Hbad), line_not_empty, Hraise.
    reflexivity. }
  rewrite H1.
  assert (H2 : iteration loads self
                 (mk_process (good ++ eol) ""
                    (print ("Error: " ++ exn_str e)
                       (print "Payload Content MCP Server starting..." "")) st true)
               = mk_process ""
                   (print (dumps (result_response id (JObj [("tools", JArr tools)]))) "")
                   (print ("Error: " ++ exn_str e)
                      (print "Payload Content MCP Server starting..." "")) st true).
  { unfold iteration. cbn [stdin stdout stderr db].
    rewrite Hread, Hne, Hparse, Hrun. reflexivity. }
  rewrite H2.
  assert (H3 : iteration loads self
                 (mk_process ""
                    (print (dumps (result_response id (JObj [("tools", JArr tools)]))) "")
                    (print ("Error: " ++ exn_str e)
                       (print "Payload Content MCP Server starting..." "")) st true)
               = mk_process ""
                   (print (dumps (result_response id (JObj [("tools", JArr tools)]))) "")
                   (print ("Error: " ++ exn_str e)
                      (print "Payload Content MCP Server starting..." "")) st false)
    by reflexivity.
  rewrite H3.
  repeat split.
  - unfold run. rewrite loop_three.
    + rewrite H1, H2, H3. reflexivity.
    + reflexivity.
    + rewrite H1. reflexivity.
    + rewrite H1, H2. reflexivity.
    + rewrite H1, H2, H3. reflexivity.
    + assert (Hrest : 0 < String.length (good ++ eol)).
      { destruct (good ++ eol); [discriminate Hne | simpl; lia]. }
      rewrite !string_length_app in *. simpl. lia.
  - cbn [stdout]. apply print_one_line, dumps_one_line.
Qed.

Lemma malformed_line_is_skipped_witness :
  exists id,
    get (JObj Session.request) "id" JNull = Return id /\
    let input := Session.bad ++ nl ++ Session.good ++ nl in
    let answer := dumps (result_response id (JObj [("tools", JArr tools)])) in
    let started := print "Payload Content MCP Server starting..." "" in
    let diagnosed :=
      print ("Error: " ++ exn_str (JSONDecodeError "Expecting value")) started in
    let p1 := iteration Parser.loads Demo.self (start input Demo.empty) in
    let p2 := iteration Parser.loads Demo.self p1 in
    let p3 := iteration Parser.loads Demo.self p2 in
    p1 = mk_process (Session.good ++ nl) "" diagnosed Demo.empty true /\
    p2 = mk_process "" (print answer "") diagnosed Demo.empty true /\
    p3 = mk_process "" (print answer "") diagnosed Demo.empty false /\
    run Parser.loads Demo.self input Demo.empty = p3 /\
    lines_written (stdout p3) = 1.
Proof.
  apply (malformed_line_is_skipped Parser.loads Demo.self Session.bad Session.good nl
           (JSONDecodeError "Expecting value") Session.request Demo.empty).
  - reflexivity.
  - vm_compute. reflexivity.
  - left. reflexivity.
  - vm_compute. reflexivity.
  - vm_compute. reflexivity.
  - reflexivity.
Defined.

(** The whole session, run: the banner and the diagnostic on the error
    stream, the list of tools as the one line of the output. *)
Example session_run :
  let p := run Parser.loads Demo.self
             (Session.bad ++ nl ++ Session.good ++ nl) Demo.empty in
  running p = false /\
  stderr p = "Payload Content MCP Server starting..." ++ nl
             ++ "Error: Expecting value" ++ nl /\
  stdout p = dumps (result_response (JNum 1) (JObj [("tools", JArr tools)])) ++ nl /\
  lines_written (stdout p) = 1.
Proof. vm_compute. repeat split; reflexivity. Qed.

(** * Further properties *)

(** ** Invariants through the monad *)

Section Keeps.

Variable I : store -> Prop.
Variable R : store -> store -> Prop.
Hypothesis R_refl : forall st, R st st.
Hypothesis R_trans : forall st1 st2 st3, R st1 st2 -> R st2 st3 -> R st1 st3.

Lemma keeps_ret {A} (Q : A -> Prop) (a : A) : Q a -> keeps I R Q (ret a).
Proof. intros Ha st Hst. cbn. auto. Qed.

Lemma keeps_raise {A} (Q : A -> Prop) (e : exn) : keeps I R Q (raise e).
Proof. intros st Hst. cbn. auto. Qed.

Lemma keeps_lift {A} (o : outcome A) : keeps I R anything (lift o).
Proof. intros st Hst. cbn. repeat split; auto. destruct o; exact Logic.I. Qed.

Lemma keeps_bind {A B} (Q : A -> Prop) (Q' : B -> Prop) (m : M A) (k : A -> M B) :
  keeps I R Q m -> (forall a, Q a -> keeps I R Q' (k a)) -> keeps I R Q' (bind m k).
Proof.
  intros Hm Hk st Hst. unfold bind.
  destruct (Hm st Hst) as (HI & HR & HQ).
  destruct (m st) as [[a|e] st1]; cbn in *.
  - destruct (Hk a HQ st1 HI) as (HI' & HR' & HQ').
    repeat split; eauto.
  - auto.
Qed.

Lemma keeps_try_except {A} (Q : A -> Prop) (m : M A) (handler : exn -> M A) :
  keeps I R Q m -> (forall e, keeps I R Q (handler e)) ->
  keeps I R Q (try_except m handler).
Proof.
  intros Hm Hh st Hst. unfold try_except.
  destruct (Hm st Hst) as (HI & HR & HQ).
  destruct (m st) as [[a|e] st1]; cbn in *.
  - auto.
  - destruct (Hh e st1 HI) as (HI' & HR' & HQ'). repeat split; eauto.
Qed.

Lemma keeps_weaken {A} (Q Q' : A -> Prop) (m : M A) :
  (forall a, Q a -> Q' a) -> keeps I R Q m -> keeps I R Q' m.
Proof.
  intros HQ Hm st Hst. destruct (Hm st Hst) as (HI & HR & Hq).
  repeat split; auto. destruct (fst (m st)); auto.
Qed.

End Keeps.

Lemma keeps_relax {A} (I : store -> Prop) (R R' : store -> store -> Prop)
    (Q : A -> Prop) (m : M A) :
  (forall st st', R st st' -> R' st st') -> keeps I R Q m -> keeps I R' Q m.
Proof.
  intros HR Hm st Hst. destruct (Hm st Hst) as (HI & Hr & Hq). auto.
Qed.

Lemma same_tables_refl (st : store) : same_tables st st.
Proof. split; reflexivity. Qed.

Lemma same_tables_trans (st1 st2 st3 : store) :
  same_tables st1 st2 -> same_tables st2 st3 -> same_tables st1 st3.
Proof. intros [H1 H2] [H3 H4]. split; congruence. Qed.

Lemma grown_refl (st : store) : grown st st.
Proof. exists [], []. rewrite !app_nil_r. repeat split; constructor. Qed.

Lemma grown_trans (st1 st2 st3 : store) : grown st1 st2 -> grown st2 st3 -> grown st1 st3.
Proof.
  intros (ps & qs & Hp & Hq & Fp & Fq) (ps' & qs' & Hp' & Hq' & Fp' & Fq').
  exists (ps ++ ps')%list, (qs ++ qs')%list.
  rewrite Hp', Hp, Hq', Hq, !app_assoc.
  repeat split; try reflexivity; apply Forall_app; split; assumption.
Qed.

Lemma same_tables_grown (st st' : store) : same_tables st st' -> grown st st'.
Proof.
  intros [Hp Hq]. exists [], []. rewrite !app_nil_r. repeat split; auto; constructor.
Qed.

Lemma Forall_replace_nth {X} (P : X -> Prop) (n : nat) (x : X) (l : list X) :
  P x -> Forall P l -> Forall P (replace_nth n x l).
Proof.
  intros Hx Hl. revert n. induction Hl as [|y l Hy Hl IH]; intros [|n]; simpl;
    constructor; auto.
Qed.

Lemma pending_of_published (t : table) (ps : list (table * row)) :
  Forall (fun tr => is_published (snd tr)) ps -> Forall is_published (pending_of t ps).
Proof.
  induction 1 as [|[[] r] ps Hr _ IH]; destruct t; simpl; auto.
Qed.

(** *** The driver keeps the uncommitted rows published *)

Section Driver.

Let I := pending_published.

Lemma keeps_driver_call (c : call) : keeps I same_tables anything (driver_call c).
Proof.
  intros st Hst. unfold driver_call. destruct st as [ps qs pseq qseq clk cs fs lg].
  destruct fs as [|[msg|] fs]; cbn; repeat split; auto.
Qed.

Lemma keeps_open_conn (h : nat) :
  keeps I same_tables
        (fun c => Forall (fun tr => is_published (snd tr)) (conn_pending c))
        (open_conn h).
Proof.
  intros st Hst. unfold open_conn.
  destruct (nth_error (conns st) h) as [c|] eqn:E; cbn.
  - destruct (conn_open c); cbn; repeat split; auto.
    apply nth_error_In in E. unfold I, pending_published in Hst.
    rewrite Forall_forall in Hst. apply Hst, E.
  - repeat split; auto.
Qed.

Lemma keeps_connect (dsn : string) : keeps I same_tables anything (connect dsn).
Proof.
  unfold connect.
  eapply keeps_bind;
    [apply same_tables_trans | apply keeps_driver_call | intros _ _].
  intros st Hst. cbn. repeat split; auto.
  unfold I, pending_published in *. cbn.
  apply Forall_app. split; [exact Hst|]. repeat constructor.
Qed.

Lemma keeps_close (h : nat) : keeps I same_tables anything (close h).
Proof.
  unfold close.
  eapply keeps_bind;
    [apply same_tables_trans | apply keeps_driver_call | intros _ _].
  intros st Hst. cbn. repeat split; auto.
  unfold I, pending_published in *. cbn.
  apply Forall_replace_nth; [constructor | exact Hst].
Qed.

Lemma keeps_new_cursor (h : nat) : keeps I same_tables anything (new_cursor h).
Proof.
  unfold new_cursor.
  eapply keeps_bind;
    [apply same_tables_trans | apply keeps_driver_call | intros _ _].
  eapply keeps_bind;
    [apply same_tables_trans | apply keeps_open_conn | intros c _].
  apply keeps_ret; [apply same_tables_refl | exact Logic.I].
Qed.

Lemma keeps_fetchall (cur : cursor) : keeps I same_tables anything (fetchall cur).
Proof.
  unfold fetchall.
  eapply keeps_bind;
    [apply same_tables_trans | apply keeps_driver_call | intros _ _].
  apply keeps_ret; [apply same_tables_refl | exact Logic.I].
Qed.

Lemma keeps_fetchone (cur : cursor) : keeps I same_tables anything (fetchone cur).
Proof.
  unfold fetchone.
  eapply keeps_bind;
    [apply same_tables_trans | apply keeps_driver_call | intros _ _].
  apply keeps_ret; [apply same_tables_refl | exact Logic.I].
Qed.

Lemma keeps_cursor_close (cur : cursor) :
  keeps I same_tables anything (cursor_close cur).
Proof. apply keeps_driver_call. Qed.

Lemma keeps_insert_row (h : nat) (c : conn) (t : table)
    (slug title doc : string) (hero : option string) (meta : string) :
  Forall (fun tr => is_published (snd tr)) (conn_pending c) ->
  keeps I same_tables anything (insert_row h c t slug title doc hero meta).
Proof.
  intros Hc st Hst. unfold insert_row. destruct t; cbn; repeat split; auto;
    unfold I, pending_published in *; cbn;
    (apply Forall_replace_nth; [|exact Hst]); cbn;
    (apply Forall_app; split; [exact Hc|]); repeat constructor.
Qed.

Lemma keeps_execute (cur : cursor) (s : statement) (params : list json) :
  keeps I same_tables anything (execute cur s params).
Proof.
  unfold execute.
  eapply keeps_bind;
    [apply same_tables_trans | apply keeps_driver_call | intros _ _].
  eapply keeps_bind;
    [apply same_tables_trans | apply keeps_open_conn | intros c Hc].
  destruct s as [t| |].
  - destruct params as [|limit [|? ?]];
      try (apply keeps_raise; apply same_tables_refl).
    eapply keeps_bind with (Q := anything); [apply same_tables_trans | | intros rows _].
    + intros st Hst. cbn. repeat split; auto.
      destruct (select_published _ _); exact Logic.I.
    + apply keeps_ret; [apply same_tables_refl | exact Logic.I].
  - destruct params as [|slug [|title [|layout [|hero [|meta [|? ?]]]]]];
      try (apply keeps_raise; apply same_tables_refl).
    repeat (eapply keeps_bind;
            [apply same_tables_trans | apply keeps_lift; apply same_tables_refl
            | intros ? _]).
    eapply keeps_bind;
      [apply same_tables_trans | apply keeps_insert_row; exact Hc | intros r _].
    apply keeps_ret; [apply same_tables_refl | exact Logic.I].
  - destruct params as [|slug [|title [|content [|meta [|? ?]]]]];
      try (apply keeps_raise; apply same_tables_refl).
    repeat (eapply keeps_bind;
            [apply same_tables_trans | apply keeps_lift; apply same_tables_refl
            | intros ? _]).
    eapply keeps_bind;
      [apply same_tables_trans | apply keeps_insert_row; exact Hc | intros r _].
    apply keeps_ret; [apply same_tables_refl | exact Logic.I].
Qed.

Lemma keeps_commit (h : nat) : keeps I grown anything (commit h).
Proof.
  unfold commit.
  eapply keeps_bind;
    [apply grown_trans
    | eapply keeps_relax; [apply same_tables_grown | apply keeps_driver_call]
    | intros _ _].
  eapply keeps_bind;
    [apply grown_trans
    | eapply keeps_relax; [apply same_tables_grown | apply keeps_open_conn]
    | intros c Hc].
  intros st Hst. cbn. repeat split; auto.
  - unfold I, pending_published in *. cbn.
    apply Forall_replace_nth; [constructor | exact Hst].
  - eexists _, _. cbn. repeat split; try reflexivity;
      apply pending_of_published, Hc.
Qed.

End Driver.

(** *** The calls of a read leave the tables alone *)

Section Reads.

Let T := same_tables.

Lemma tables_driver_call (c : call) : keeps any_store T anything (driver_call c).
Proof.
  intros st _. unfold driver_call. destruct st as [ps qs pseq qseq clk cs fs lg].
  destruct fs as [|[msg|] fs]; cbn; repeat split; auto.
Qed.

Lemma tables_open_conn (h : nat) : keeps any_store T anything (open_conn h).
Proof.
  intros st _. unfold open_conn.
  destruct (nth_error (conns st) h) as [c|]; cbn; [destruct (conn_open c)|];
    cbn; repeat split; auto.
Qed.

Lemma tables_connect (dsn : string) : keeps any_store T anything (connect dsn).
Proof.
  unfold connect.
  eapply keeps_bind;
    [apply same_tables_trans | apply tables_driver_call | intros _ _].
  intros st _. cbn. repeat split; auto.
Qed.

Lemma tables_close (h : nat) : keeps any_store T anything (close h).
Proof.
  unfold close.
  eapply keeps_bind;
    [apply same_tables_trans | apply tables_driver_call | intros _ _].
  intros st _. cbn. repeat split; auto.
Qed.

Lemma tables_new_cursor (h : nat) : keeps any_store T anything (new_cursor h).
Proof.
  unfold new_cursor.
  eapply keeps_bind;
    [apply same_tables_trans | apply tables_driver_call | intros _ _].
  eapply keeps_bind;
    [apply same_tables_trans | apply tables_open_conn | intros c _].
  apply keeps_ret; [apply same_tables_refl | exact Logic.I].
Qed.

Lemma tables_fetchall (cur : cursor) : keeps any_store T anything (fetchall cur).
Proof.
  unfold fetchall.
  eapply keeps_bind;
    [apply same_tables_trans | apply tables_driver_call | intros _ _].
  apply keeps_ret; [apply same_tables_refl | exact Logic.I].
Qed.

Lemma tables_select (cur : cursor) (t : table) (params : list json) :
  keeps any_store T anything (execute cur (SelectPublished t) params).
Proof.
  unfold execute.
  eapply keeps_bind;
    [apply same_tables_trans | apply tables_driver_call | intros _ _].
  eapply keeps_bind;
    [apply same_tables_trans | apply tables_open_conn | intros c _].
  destruct params as [|limit [|? ?]];
    try (apply keeps_raise; apply same_tables_refl).
  eapply keeps_bind with (Q := anything); [apply same_tables_trans | | intros rows _].
  - intros st _. cbn. repeat split; auto.
    destruct (select_published _ _); exact Logic.I.
  - apply keeps_ret; [apply same_tables_refl | exact Logic.I].
Qed.

(** The body the two read tools share, up to the table and the rendering. *)
Lemma tables_read (dsn : string) (t : table) (args : json) (render : list row -> json) :
  keeps any_store T anything
    (conn <- connect dsn ;;
     cur <- new_cursor conn ;;
     limit <- lift (get args "limit" (JNum 10)) ;;
     cur <- execute cur (SelectPublished t) [limit] ;;
     rows <- fetchall cur ;;
     cursor_close cur ;;
     close conn ;;
     ret (render rows))%py.
Proof.
  eapply keeps_bind; [apply same_tables_trans | apply tables_connect | intros conn _].
  eapply keeps_bind; [apply same_tables_trans | apply tables_new_cursor | intros cur _].
  eapply keeps_bind;
    [apply same_tables_trans | apply keeps_lift, same_tables_refl | intros limit _].
  eapply keeps_bind; [apply same_tables_trans | apply tables_select | intros cur' _].
  eapply keeps_bind; [apply same_tables_trans | apply tables_fetchall | intros rows _].
  eapply keeps_bind;
    [apply same_tables_trans | apply tables_driver_call | intros _ _].
  eapply keeps_bind; [apply same_tables_trans | apply tables_close | intros _ _].
  apply keeps_ret; [apply same_tables_refl | exact Logic.I].
Qed.

End Reads.

(** X1: [list_pages] and [list_posts] leave both tables exactly as they
    were, whatever their arguments, whichever driver call fails and whether
    they return or raise. *)
Theorem read_tools_leave_tables :
  forall (self : server) (args : json) (st : store),
    same_tables st (snd (execute_tool self (JStr "list_pages") args st)) /\
    same_tables st (snd (execute_tool self (JStr "list_posts") args st)).
Proof.
  intros self args st. split.
  - apply (tables_read (db_url self) Pages args
             (fun rows => text_content (fold_left page_entry rows pages_header)) st).
    exact Logic.I.
  - apply (tables_read (db_url self) Posts args
             (fun rows => text_content (fold_left post_entry rows posts_header)) st).
    exact Logic.I.
Qed.

(** *** The tables only grow, by published rows *)

Lemma keeps_execute_tool (self : server) (name args : json) :
  keeps pending_published grown anything (execute_tool self name args).
Proof.
  assert (Hd : forall c, keeps pending_published grown anything (driver_call c)).
  { intros c. eapply keeps_relax; [apply same_tables_grown | apply keeps_driver_call]. }
  assert (Hread : forall (t : table) (render : list row -> json),
             keeps pending_published grown anything
               (conn <- connect (db_url self) ;;
                cur <- new_cursor conn ;;
                limit <- lift (get args "limit" (JNum 10)) ;;
                cur <- execute cur (SelectPublished t) [limit] ;;
                rows <- fetchall cur ;;
                cursor_close cur ;;
                close conn ;;
                ret (render rows))%py).
  { intros t render. eapply keeps_relax; [apply same_tables_grown|].
    eapply keeps_bind; [apply same_tables_trans | apply keeps_connect | intros conn _].
    eapply keeps_bind; [apply same_tables_trans | apply keeps_new_cursor | intros cur _].
    eapply keeps_bind;
      [apply same_tables_trans | apply keeps_lift, same_tables_refl | intros limit _].
    eapply keeps_bind; [apply same_tables_trans | apply keeps_execute | intros cur' _].
    eapply keeps_bind; [apply same_tables_trans | apply keeps_fetchall | intros rows _].
    eapply keeps_bind;
      [apply same_tables_trans | apply keeps_cursor_close | intros _ _].
    eapply keeps_bind; [apply same_tables_trans | apply keeps_close | intros _ _].
    apply keeps_ret; [apply same_tables_refl | exact Logic.I]. }
  assert (Hwrite : forall (s : statement) (params : list json) (text : string),
             keeps pending_published grown anything
               (conn <- connect (db_url self) ;;
                cur <- new_cursor conn ;;
                cur <- execute cur s params ;;
                result <- fetchone cur ;;
                commit conn ;;
                cursor_close cur ;;
                close conn ;;
                ret (text_content text))%py).
  { intros s params text.
    eapply keeps_bind;
      [apply grown_trans
      | eapply keeps_relax; [apply same_tables_grown | apply keeps_connect]
      | intros conn _].
    eapply keeps_bind;
      [apply grown_trans
      | eapply keeps_relax; [apply same_tables_grown | apply keeps_new_cursor]
      | intros cur _].
    eapply keeps_bind;
      [apply grown_trans
      | eapply keeps_relax; [apply same_tables_grown | apply keeps_execute]
      | intros cur' _].
    eapply keeps_bind;
      [apply grown_trans
      | eapply keeps_relax; [apply same_tables_grown | apply keeps_fetchone]
      | intros result _].
    eapply keeps_bind; [apply grown_trans | apply keeps_commit | intros _ _].
    eapply keeps_bind; [apply grown_trans | apply Hd | intros _ _].
    eapply keeps_bind;
      [apply grown_trans
      | eapply keeps_relax; [apply same_tables_grown | apply keeps_close]
      | intros _ _].
    apply keeps_ret; [apply grown_refl | exact Logic.I]. }
  unfold execute_tool.
  destruct (eq_str name "list_pages"); [apply Hread|].
  destruct (eq_str name "create_page").
  { repeat (eapply keeps_bind;
            [apply grown_trans | apply keeps_lift, grown_refl | intros ? _]).
    apply Hwrite. }
  destruct (eq_str name "list_posts"); [apply Hread|].
  destruct (eq_str name "create_post").
  { repeat (eapply keeps_bind;
            [apply grown_trans | apply keeps_lift, grown_refl | intros ? _]).
    apply Hwrite. }
  apply keeps_ret; [apply grown_refl | exact Logic.I].
Qed.

Lemma keeps_handle_request (self : server) (request : json) :
  keeps pending_published grown anything (handle_request self request).
Proof.
  unfold handle_request.
  eapply keeps_bind; [apply grown_trans | apply keeps_lift, grown_refl | intros method _].
  eapply keeps_bind; [apply grown_trans | apply keeps_lift, grown_refl | intros id _].
  destruct (eq_str method "initialize");
    [apply keeps_ret; [apply grown_refl | exact Logic.I]|].
  destruct (eq_str method "tools/list");
    [apply keeps_ret; [apply grown_refl | exact Logic.I]|].
  destruct (eq_str method "tools/call");
    [|apply keeps_ret; [apply grown_refl | exact Logic.I]].
  repeat (eapply keeps_bind;
          [apply grown_trans | apply keeps_lift, grown_refl | intros ? _]).
  apply keeps_try_except; [apply grown_trans | |].
  - eapply keeps_bind; [apply grown_trans | apply keeps_execute_tool | intros result _].
    apply keeps_ret; [apply grown_refl | exact Logic.I].
  - intros e. apply keeps_ret; [apply grown_refl | exact Logic.I].
Qed.

Lemma iteration_grows (loads : string -> outcome json) (self : server) (p : process) :
  pending_published (db p) ->
  pending_published (db (iteration loads self p)) /\
  grown (db p) (db (iteration loads self p)).
Proof.
  intros Hp. unfold iteration. destruct (readline (stdin p)) as [line rest].
  destruct (String.eqb line ""); [split; [exact Hp | apply grown_refl]|].
  destruct (loads line) as [request|e]; [|split; [exact Hp | apply grown_refl]].
  destruct (keeps_handle_request self request (db p) Hp) as (HI & HR & _).
  destruct (handle_request self request (db p)) as [[response|e] db']; cbn in *;
    split; assumption.
Qed.

Lemma loop_grows (loads : string -> outcome json) (self : server)
    (turns : nat) (p : process) :
  pending_published (db p) ->
  pending_published (db (loop loads self turns p)) /\
  grown (db p) (db (loop loads self turns p)).
Proof.
  revert p. induction turns as [|turns IH]; intros p Hp; simpl.
  - split; [exact Hp | apply grown_refl].
  - destruct (running p); [|split; [exact Hp | apply grown_refl]].
    destruct (iteration_grows loads self p Hp) as [Hi Hg].
    destruct (IH _ Hi) as [Hi' Hg'].
    split; [exact Hi' | eapply grown_trans; eassumption].
Qed.

(** X2: whatever is fed to the server and whatever fails on the way, the
    tables at the end of [run] are the tables at the start with published
    rows added at their end: no row is removed or rewritten and no draft is
    stored.  The store at the start holds no uncommitted draft. *)
Theorem run_only_adds_published :
  forall (loads : string -> outcome json) (self : server) (input : string) (st : store),
    pending_published st ->
    grown st (db (run loads self input st)) /\
    pending_published (db (run loads self input st)).
Proof.
  intros loads self input st Hst. unfold run.
  destruct (loop_grows loads self (S (String.length input)) (start input st) Hst)
    as [Hi Hg].
  split; assumption.
Qed.

Lemma run_only_adds_published_witness :
  grown Demo.empty
    (db (run Parser.loads Demo.self
           (dumps (JObj (Demo.call 1 "create_page"
                           (JObj [("title", JStr "T"); ("slug", JStr "t");
                                  ("content", JStr "C")]))) ++ nl)
           Demo.empty)) /\
  pending_published
    (db (run Parser.loads Demo.self
           (dumps (JObj (Demo.call 1 "create_page"
                           (JObj [("title", JStr "T"); ("slug", JStr "t");
                                  ("content", JStr "C")]))) ++ nl)
           Demo.empty)).
Proof.
  apply (run_only_adds_published Parser.loads Demo.self
           (dumps (JObj (Demo.call 1 "create_page"
                           (JObj [("title", JStr "T"); ("slug", JStr "t");
                                  ("content", JStr "C")]))) ++ nl)
           Demo.empty).
  unfold pending_published. simpl. constructor.
Defined.

(** ** The dispatcher, on every request *)

(** A [tools/call] that names its tool runs the executor and wraps what it
    did. *)
Lemma handle_call (self : server) (request params : dict) (name args id : json) st :
  assoc "method" request = Some (JStr "tools/call") ->
  assoc "params" request = Some (JObj params) ->
  assoc "name" params = Some name ->
  get (JObj params) "arguments" (JObj []) = Return args ->
  get (JObj request) "id" JNull = Return id ->
  handle_request self (JObj request) st
  = match execute_tool self name args st with
    | (Return result, st') => (Return (result_response id result), st')
    | (Raise e, st') => (Return (error_response id (-32603) (exn_str e)), st')
    end.
Proof.
  intros Hm Hp Hn Hargs Hid.
  unfold handle_request, bind, lift, subscript, try_except.
  rewrite Hid. unfold get at 1. rewrite Hm.
  cbn [eq_str String.eqb Ascii.eqb Bool.eqb]. rewrite Hp, Hn, Hargs.
  destruct (execute_tool self name args st) as [[result|e] st']; reflexivity.
Qed.

(** X3: every response [handle_request] returns is a JSON-RPC 2.0 envelope
    with either a result and no error, or an error and no result; an error
    has code -32601 exactly when the method is none of the three the
    dispatcher knows, and code -32603 only for [tools/call]. *)
Theorem response_is_result_or_error :
  forall (self : server) (request : json) (st : store) (response : json) (st' : store),
    handle_request self request st = (Return response, st') ->
    exists method,
      get request "method" (JStr "") = Return method /\
      field "jsonrpc" response = Some (JStr "2.0") /\
      ((exists result,
           field "result" response = Some result /\ field "error" response = None /\
           known_method method = true) \/
       (exists message,
           field "error" response
           = Some (JObj [("code", JNum (-32601)); ("message", JStr message)]) /\
           field "result" response = None /\ known_method method = false) \/
       (exists message,
           field "error" response
           = Some (JObj [("code", JNum (-32603)); ("message", JStr message)]) /\
           field "result" response = None /\ method = JStr "tools/call")).
Proof.
  intros self request st response st' Hrun.
  change (returns (handle_request self request) st response st') in Hrun.
  unfold handle_request in Hrun.
  apply returns_bind in Hrun. destruct Hrun as (method & st1 & Hm & Hrun).
  apply returns_lift in Hm. destruct Hm as [Hm ->].
  apply returns_bind in Hrun. destruct Hrun as (id & st1 & Hid & Hrun).
  apply returns_lift in Hid. destruct Hid as [Hid ->].
  exists method. split; [exact Hm|]. unfold known_method.
  destruct (eq_str method "initialize") eqn:E1.
  { apply returns_ret in Hrun. destruct Hrun as [-> _].
    split; [reflexivity|]. left. eexists. repeat split; reflexivity. }
  destruct (eq_str method "tools/list") eqn:E2.
  { apply returns_ret in Hrun. destruct Hrun as [-> _].
    split; [reflexivity|]. left. eexists. repeat split; reflexivity. }
  destruct (eq_str method "tools/call") eqn:E3.
  2:{ apply returns_ret in Hrun. destruct Hrun as [-> _].
      split; [reflexivity|]. right. left. eexists. repeat split; reflexivity. }
  apply eq_str_true in E3.
  invert_returns.
  match goal with Htry : returns (try_except _ _) _ _ _ |- _ =>
    apply returns_try_except in Htry;
    destruct Htry as [Hbody|(e & st1 & _ & Hhandler)] end.
  - invert_returns. split; [reflexivity|]. left. eexists. repeat split; reflexivity.
  - apply returns_ret in Hhandler. destruct Hhandler as [-> _].
    split; [reflexivity|]. right. right. eexists. repeat split; reflexivity.
Qed.

Lemma response_is_result_or_error_witness :
  exists method,
    get (JObj (Demo.call 2 "create_post" (JObj []))) "method" (JStr "") = Return method /\
    field "jsonrpc" (error_response (JNum 2) (-32603) "'title'") = Some (JStr "2.0") /\
    ((exists result,
         field "result" (error_response (JNum 2) (-32603) "'title'") = Some result /\
         field "error" (error_response (JNum 2) (-32603) "'title'") = None /\
         known_method method = true) \/
     (exists message,
         field "error" (error_response (JNum 2) (-32603) "'title'")
         = Some (JObj [("code", JNum (-32601)); ("message", JStr message)]) /\
         field "result" (error_response (JNum 2) (-32603) "'title'") = None /\
         known_method method = false) \/
     (exists message,
         field "error" (error_response (JNum 2) (-32603) "'title'")
         = Some (JObj [("code", JNum (-32603)); ("message", JStr message)]) /\
         field "result" (error_response (JNum 2) (-32603) "'title'") = None /\
         method = JStr "tools/call")).
Proof.
  apply (response_is_result_or_error Demo.self
           (JObj (Demo.call 2 "create_post" (JObj []))) Demo.empty
           (error_response (JNum 2) (-32603) "'title'") Demo.empty).
  vm_compute. reflexivity.
Defined.

(** ** The tools on a store whose driver calls do not fail *)







(** ** Drafts *)

Lemma select_published_depends_on_published (rows rows' : list row) (limit : json) :
  filter published rows = filter published rows' ->
  select_published rows limit = select_published rows' limit.
Proof. unfold select_published. intros ->. reflexivity. Qed.

(** X5: the text of a listing depends on the published records only: two
    stores whose published pages (posts) are the same give the same
    [list_pages] ([list_posts]) text for the same arguments, whatever drafts
    and other states either holds. *)
Theorem drafts_are_not_listed :
  forall (self : server) (args : json) (st1 st2 : store),
    (filter published (pages st1) = filter published (pages st2) ->
     forall res1 st1' res2 st2',
       returns (execute_tool self (JStr "list_pages") args) st1 res1 st1' ->
       returns (execute_tool self (JStr "list_pages") args) st2 res2 st2' ->
       res1 = res2) /\
    (filter published (posts st1) = filter published (posts st2) ->
     forall res1 st1' res2 st2',
       returns (execute_tool self (JStr "list_posts") args) st1 res1 st1' ->
       returns (execute_tool self (JStr "list_posts") args) st2 res2 st2' ->
       res1 = res2).
Proof.
  intros self args st1 st2. split; intros Hsame res1 st1' res2 st2' H1 H2.
  - apply list_pages_returns in H1. apply list_pages_returns in H2.
    destruct H1 as (l1 & rows1 & Hl1 & Hs1 & -> & _).
    destruct H2 as (l2 & rows2 & Hl2 & Hs2 & -> & _).
    rewrite Hl1 in Hl2. injection Hl2 as <-.
    rewrite (select_published_depends_on_published _ _ l1 Hsame) in Hs1.
    rewrite Hs1 in Hs2. now injection Hs2 as <-.
  - apply list_posts_returns in H1. apply list_posts_returns in H2.
    destruct H1 as (l1 & rows1 & Hl1 & Hs1 & -> & _).
    destruct H2 as (l2 & rows2 & Hl2 & Hs2 & -> & _).
    rewrite Hl1 in Hl2. injection Hl2 as <-.
    rewrite (select_published_depends_on_published _ _ l1 Hsame) in Hs1.
    rewrite Hs1 in Hs2. now injection Hs2 as <-.
Qed.

(** The draft of 2021 does not show, though it is the newest page. *)
Example draft_is_not_listed :
  fst (execute_tool Demo.self (JStr "list_pages") (JObj []) Drafts.with_draft)
  = fst (execute_tool Demo.self (JStr "list_pages") (JObj []) Drafts.without_draft).
Proof. vm_compute. reflexivity. Qed.

(** ** A record just created is listed first *)






(** ** Arguments the write tools cannot use *)

Lemma slice_to_unsliceable (v : json) (n : nat) :
  unsliceable v = true -> exists msg, slice_to v n = Raise (TypeError msg).
Proof. destruct v; simpl; intros H; try discriminate; eexists; reflexivity. Qed.

(** X7: [create_page] and [create_post] with a [content] that is null, a
    boolean, a number or an object raise [TypeError] when they cut the
    summary, before they connect: the call is answered with an error of code
    -32603 and the store is exactly as before. *)
Theorem unsliceable_content_is_refused :
  forall (self : server) (request params args : dict) (name : string)
         (title slug content : json) (st : store),
    name = "create_page" \/ name = "create_post" ->
    assoc "method" request = Some (JStr "tools/call") ->
    assoc "params" request = Some (JObj params) ->
    assoc "name" params = Some (JStr name) ->
    assoc "arguments" params = Some (JObj args) ->
    assoc "title" args = Some title ->
    assoc "slug" args = Some slug ->
    assoc "content" args = Some content ->
    unsliceable content = true ->
    exists id message,
      get (JObj request) "id" JNull = Return id /\
      execute_tool self (JStr name) (JObj args) st = (Raise (TypeError message), st) /\
      handle_request self (JObj request) st
      = (Return (error_response id (-32603) message), st).
Proof.
  intros self request params args name title slug content st
         Hname Hm Hp Hn Hargs Ht Hs Hc Hbad.
  destruct (slice_to_unsliceable content 160 Hbad) as (msg & Hslice).
  assert (Hid : exists id, get (JObj request) "id" JNull = Return id).
  { unfold get. destruct (assoc "id" request); eexists; reflexivity. }
  destruct Hid as (id & Hid).
  assert (Hraise : execute_tool self (JStr name) (JObj args) st
                   = (Raise (TypeError msg), st)).
  { destruct Hname as [-> | ->]; unfold execute_tool;
      cbn [eq_str String.eqb Ascii.eqb Bool.eqb];
      unfold bind, lift, subscript; rewrite Ht, Hs, Hc, Hslice; reflexivity. }
  exists id, msg. split; [exact Hid|]. split; [exact Hraise|].
  rewrite (handle_call self request params (JStr name) (JObj args) id st Hm Hp Hn);
    [| unfold get; rewrite Hargs; reflexivity | exact Hid].
  rewrite Hraise. reflexivity.
Qed.

Lemma unsliceable_content_is_refused_witness :
  exists id message,
    get (JObj (Demo.call 6 "create_post"
                 (JObj [("title", JStr "T"); ("slug", JStr "t"); ("content", JNum 42)])))
        "id" JNull = Return id /\
    execute_tool Demo.self (JStr "create_post")
      (JObj [("title", JStr "T"); ("slug", JStr "t"); ("content", JNum 42)]) Demo.empty
    = (Raise (TypeError message), Demo.empty) /\
    handle_request Demo.self
      (JObj (Demo.call 6 "create_post"
               (JObj [("title", JStr "T"); ("slug", JStr "t"); ("content", JNum 42)])))
      Demo.empty
    = (Return (error_response id (-32603) message), Demo.empty).
Proof.
  apply (unsliceable_content_is_refused Demo.self
           (Demo.call 6 "create_post"
              (JObj [("title", JStr "T"); ("slug", JStr "t"); ("content", JNum 42)]))
           [("name", JStr "create_post");
            ("arguments",
             JObj [("title", JStr "T"); ("slug", JStr "t"); ("content", JNum 42)])]
           [("title", JStr "T"); ("slug", JStr "t"); ("content", JNum 42)]
           "create_post" (JStr "T") (JStr "t") (JNum 42) Demo.empty);
    try reflexivity.
  right. reflexivity.
Defined.

(** ** A store that cannot be reached *)

(** X8: when [psycopg2.connect] fails, a call of [list_pages] or
    [list_posts] is answered with an error of code -32603 whose message is
    the text of the driver's failure, word for word; no connection is
    opened and the tables are as before. *)
Theorem connect_failure_is_reported :
  forall (self : server) (request params : dict) (name : string) (args id : json)
         (msg : string) (later : list (option string)) (st : store),
    name = "list_pages" \/ name = "list_posts" ->
    assoc "method" request = Some (JStr "tools/call") ->
    assoc "params" request = Some (JObj params) ->
    assoc "name" params = Some (JStr name) ->
    get (JObj params) "arguments" (JObj []) = Return args ->
    get (JObj request) "id" JNull = Return id ->
    faults st = Some msg :: later ->
    exists st',
      handle_request self (JObj request) st
      = (Return (error_response id (-32603) msg), st') /\
      conns st' = conns st /\ same_tables st st' /\
      log st' = (log st ++ [Connect (db_url self)])%list /\
      faults st' = later.
Proof.
  intros self request params name args id msg later st
         Hname Hm Hp Hn Hargs Hid Hf.
  rewrite (handle_call self request params (JStr name) args id st Hm Hp Hn Hargs Hid).
  destruct st as [ps qs pseq qseq clk cs fs lg]. cbn in Hf. subst fs.
  destruct Hname as [-> | ->]; unfold execute_tool;
    cbn [eq_str String.eqb Ascii.eqb Bool.eqb];
    unfold bind, connect, bind, driver_call; cbn;
    eexists; (split; [reflexivity | repeat split; reflexivity]).
Qed.

Lemma connect_failure_is_reported_witness :
  exists st',
    handle_request Demo.self (JObj (Demo.call 8 "list_posts" (JObj [])))
      (mk_store [] [] 1 1 0 [] [Some "could not connect to server"] [])
    = (Return (error_response (JNum 8) (-32603) "could not connect to server"), st') /\
    conns st' = conns (mk_store [] [] 1 1 0 [] [Some "could not connect to server"] []) /\
    same_tables (mk_store [] [] 1 1 0 [] [Some "could not connect to server"] []) st' /\
    log st'
    = (log (mk_store [] [] 1 1 0 [] [Some "could not connect to server"] [])
       ++ [Connect (db_url Demo.self)])%list /\
    faults st' = [].
Proof.
  apply (connect_failure_is_reported Demo.self
           (Demo.call 8 "list_posts" (JObj []))
           [("name", JStr "list_posts"); ("arguments", JObj [])]
           "list_posts" (JObj []) (JNum 8) "could not connect to server" []
           (mk_store [] [] 1 1 0 [] [Some "could not connect to server"] []));
    try reflexivity.
  right. reflexivity.
Defined.

(** ** The schemas of [tools/list] and the executor *)





(** X10: the default the schema of a read tool advertises for [limit] is
    the one the executor applies: a call without [limit] does exactly what
    the call with [limit] set to the advertised default does. *)
Theorem schema_default_limit_is_applied :
  forall (descriptor : json) (name : string) (default : json),
    In descriptor tools ->
    field "name" descriptor = Some (JStr name) ->
    schema_default descriptor "limit" = Some default ->
    forall (self : server) (args : dict) (st : store),
      assoc "limit" args = None ->
      execute_tool self (JStr name) (JObj args) st
      = execute_tool self (JStr name) (JObj (("limit", default) :: args)) st.
Proof.
  intros descriptor name default Hin Hname Hdefault self args st Hl.
  simpl in Hin. destruct Hin as [<-|[<-|[<-|[<-|[]]]]];
    cbn in Hname, Hdefault; try discriminate;
    injection Hname as <-; injection Hdefault as <-;
    unfold execute_tool; cbn [eq_str String.eqb Ascii.eqb Bool.eqb];
    unfold get; cbn [assoc String.eqb Ascii.eqb Bool.eqb]; rewrite Hl; reflexivity.
Qed.

Lemma schema_default_limit_is_applied_witness :
  execute_tool Demo.self (JStr "list_posts") (JObj []) Listing.six_pages
  = execute_tool Demo.self (JStr "list_posts") (JObj [("limit", JNum 10)])
      Listing.six_pages.
Proof.
  apply (schema_default_limit_is_applied
           (tool "list_posts" "List all blog posts"
                 (limit_schema "Number of posts to return"))
           "list_posts" (JNum 10)).
  - simpl. right. right. left. reflexivity.
  - reflexivity.
  - reflexivity.
  - reflexivity.
Defined.

(** ** Sessions of the stdio loop *)

Section Sessions.

Variable loads : string -> outcome json.
Variable self : server.

Lemma print_after (text out stream : string) :
  print text (out ++ stream) = out ++ print text stream.
Proof. unfold print. apply append_assoc. Qed.

Lemma iteration_after (out err : string) (p : process) :
  iteration loads self (after out err p) = after out err (iteration loads self p).
Proof.
  unfold iteration, after. cbn [stdin stdout stderr db running].
  destruct (readline (stdin p)) as [line rest].
  destruct (String.eqb line ""); [reflexivity|].
  destruct (loads line) as [request|e].
  - destruct (handle_request self request (db p)) as [[response|e] db'];
      cbn [stdin stdout stderr db running]; rewrite print_after; reflexivity.
  - cbn [stdin stdout stderr db running]. rewrite print_after. reflexivity.
Qed.

(** What was written before does not change what the loop does. *)
Lemma loop_after (turns : nat) (out err : string) (p : process) :
  loop loads self turns (after out err p) = after out err (loop loads self turns p).
Proof.
  revert p. induction turns as [|turns IH]; intros p; [reflexivity|].
  cbn [loop]. change (running (after out err p)) with (running p).
  destruct (running p); [|reflexivity].
  rewrite iteration_after. apply IH.
Qed.

(** Turns beyond the end of the input change nothing. *)
Lemma loop_fuel (n m : nat) (p : process) :
  String.length (stdin p) < n -> String.length (stdin p) < m ->
  loop loads self n p = loop loads self m p.
Proof.
  revert m p. induction n as [|n IH]; intros m p Hn Hm; [lia|].
  destruct m as [|m]; [lia|]. cbn [loop].
  destruct (running p); [|reflexivity].
  destruct (iteration_progress loads self p) as [Hstop|Hless].
  - rewrite !loop_stopped by exact Hstop. reflexivity.
  - apply IH; lia.
Qed.

Lemma readline_complete (a b : string) :
  complete a = true -> a <> "" ->
  readline (a ++ b) = (fst (readline a), snd (readline a) ++ b) /\
  complete (snd (readline a)) = true /\
  fst (readline a) <> "".
Proof.
  induction a as [|c a IH]; intros Hc Hne; [congruence|].
  cbn [append readline]. destruct (Ascii.eqb c "010") eqn:E.
  - cbn. repeat split; [|discriminate].
    destruct a; [reflexivity | exact Hc].
  - destruct a as [|c' a].
    + cbn in Hc. congruence.
    + destruct IH as (Hr & Hc' & _); [exact Hc | discriminate|].
      rewrite Hr. destruct (readline (String c' a)) as [line rest].
      cbn in *. repeat split; [exact Hc' | discriminate].
Qed.

(** A turn depends on the input through the line it reads only. *)
Lemma iteration_line (input1 input2 line rest1 rest2 out err : string) (st : store) :
  readline input1 = (line, rest1) -> readline input2 = (line, rest2) -> line <> "" ->
  exists out' err' st',
    iteration loads self (mk_process input1 out err st true)
    = mk_process rest1 out' err' st' true /\
    iteration loads self (mk_process input2 out err st true)
    = mk_process rest2 out' err' st' true.
Proof.
  intros H1 H2 Hne. unfold iteration. cbn [stdin stdout stderr db].
  rewrite H1, H2. apply String.eqb_neq in Hne. rewrite Hne.
  destruct (loads line) as [request|e].
  - destruct (handle_request self request st) as [[response|e] db'];
      eexists _, _, _; split; reflexivity.
  - eexists _, _, _; split; reflexivity.
Qed.

(** The loop on two inputs put end to end is the loop on the first, then
    the loop on the second from what the first left. *)
Lemma loop_split (turns : nat) (a b out err : string) (st : store) :
  complete a = true ->
  String.length (a ++ b) < turns ->
  loop loads self turns (mk_process (a ++ b) out err st true)
  = loop loads self turns
      (mk_process b
         (stdout (loop loads self turns (mk_process a out err st true)))
         (stderr (loop loads self turns (mk_process a out err st true)))
         (db (loop loads self turns (mk_process a out err st true)))
         true).
Proof.
  revert a out err st. induction turns as [|turns IH]; intros a out err st Hc Hlen; [lia|].
  destruct a as [|c a].
  - assert (Hq : loop loads self (S turns) (mk_process "" out err st true)
                 = mk_process "" out err st false).
    { cbn [loop running]. apply loop_stopped. reflexivity. }
    rewrite Hq. reflexivity.
  - destruct (readline_complete (String c a) b Hc) as (Hr & Hc' & Hne); [discriminate|].
    destruct (readline (String c a)) as [line rest] eqn:Ha. cbn [fst snd] in *.
    destruct (iteration_line (String c a ++ b) (String c a) line (rest ++ b) rest
                out err st Hr Ha Hne) as (out' & err' & st' & H1 & H2).
    assert (Hshort : String.length (rest ++ b) < turns).
    { pose proof (readline_length (String c a)) as Hl. rewrite Ha in Hl. cbn [fst snd] in Hl.
      rewrite string_length_app in *.
      assert (0 < String.length line) by (destruct line; [congruence | simpl; lia]).
      lia. }
    assert (Hl : loop loads self (S turns)
                   (mk_process (String c a ++ b) out err st true)
                 = loop loads self turns (mk_process (rest ++ b) out' err' st' true)).
    { cbn [loop running]. rewrite H1. reflexivity. }
    assert (Hr' : loop loads self (S turns) (mk_process (String c a) out err st true)
                  = loop loads self turns (mk_process rest out' err' st' true)).
    { cbn [loop running]. rewrite H2. reflexivity. }
    rewrite Hl, Hr', (IH rest out' err' st' Hc' Hshort).
    apply loop_fuel; cbn [stdin]; rewrite string_length_app in Hshort; lia.
Qed.

End Sessions.

(** X11: feeding the server two inputs end to end, the first made of
    complete lines, is running it on the first and then on the second from
    the store the first left: the final stores agree, the output is the two
    outputs one after the other, and so are the diagnostics after the
    banner. *)
Theorem run_composes :
  forall (loads : string -> outcome json) (self : server) (a b : string) (st : store),
    complete a = true ->
    exists ea eb,
      stderr (run loads self a st) = banner ++ ea /\
      stderr (run loads self b (db (run loads self a st))) = banner ++ eb /\
      stderr (run loads self (a ++ b) st) = banner ++ ea ++ eb /\
      stdout (run loads self (a ++ b) st)
      = stdout (run loads self a st)
        ++ stdout (run loads self b (db (run loads self a st))) /\
      db (run loads self (a ++ b) st)
      = db (run loads self b (db (run loads self a st))).
Proof.
  intros loads self a b st Hc.
  assert (Hrun : forall input s,
             run loads self input s
             = after "" banner
                 (loop loads self (S (String.length input))
                    (mk_process input "" "" s true))).
  { intros input s. unfold run, start. rewrite <- loop_after.
    unfold after, banner. cbn [stdin stdout stderr db running append].
    rewrite append_nil_r. reflexivity. }
  set (n := S (String.length (a ++ b))).
  assert (Hn : String.length (a ++ b) < n) by (unfold n; lia).
  pose proof (loop_split loads self n a b "" "" st Hc Hn) as Hsplit.
  assert (Ha : loop loads self (S (String.length a)) (mk_process a "" "" st true)
               = loop loads self n (mk_process a "" "" st true)).
  { apply loop_fuel; cbn [stdin]; unfold n; rewrite ?string_length_app; lia. }
  set (pa := loop loads self n (mk_process a "" "" st true)) in *.
  assert (Hb : loop loads self n (mk_process b (stdout pa) (stderr pa) (db pa) true)
               = after (stdout pa) (stderr pa)
                   (loop loads self (S (String.length b))
                      (mk_process b "" "" (db pa) true))).
  { rewrite <- loop_after. unfold after. cbn [stdin stdout stderr db running].
    rewrite !append_nil_r.
    apply loop_fuel; cbn [stdin]; unfold n; rewrite ?string_length_app; lia. }
  rewrite Hb in Hsplit.
  exists (stderr pa),
    (stderr (loop loads self (S (String.length b)) (mk_process b "" "" (db pa) true))).
  rewrite !Hrun. fold n. rewrite Hsplit, Ha.
  unfold after. cbn [stdin stdout stderr db running append].
  repeat split; reflexivity.
Qed.

Lemma run_composes_witness :
  exists ea eb,
    stderr (run Parser.loads Demo.self (Session.bad ++ nl) Demo.empty) = banner ++ ea /\
    stderr (run Parser.loads Demo.self (Session.good ++ nl)
              (db (run Parser.loads Demo.self (Session.bad ++ nl) Demo.empty)))
    = banner ++ eb /\
    stderr (run Parser.loads Demo.self
              ((Session.bad ++ nl) ++ Session.good ++ nl) Demo.empty)
    = banner ++ ea ++ eb /\
    stdout (run Parser.loads Demo.self
              ((Session.bad ++ nl) ++ Session.good ++ nl) Demo.empty)
    = stdout (run Parser.loads Demo.self (Session.bad ++ nl) Demo.empty)
      ++ stdout (run Parser.loads Demo.self (Session.good ++ nl)
                   (db (run Parser.loads Demo.self (Session.bad ++ nl) Demo.empty))) /\
    db (run Parser.loads Demo.self
          ((Session.bad ++ nl) ++ Session.good ++ nl) Demo.empty)
    = db (run Parser.loads Demo.self (Session.good ++ nl)
            (db (run Parser.loads Demo.self (Session.bad ++ nl) Demo.empty))).
Proof.
  apply (run_composes Parser.loads Demo.self (Session.bad ++ nl) (Session.good ++ nl)
           Demo.empty).
  reflexivity.
Defined.

(** *** One output line per answered request *)

Lemma input_lines_readline (input : string) :
  input <> "" -> input_lines input = S (input_lines (snd (readline input))).
Proof.
  induction input as [|c input IH]; intros Hne; [congruence|].
  cbn [input_lines readline]. destruct (Ascii.eqb c "010"); [reflexivity|].
  destruct input as [|c' input]; [reflexivity|].
  rewrite IH by discriminate.
  destruct (readline (String c' input)) as [line rest]. reflexivity.
Qed.

Lemma complete_line (s text : string) : complete (s ++ text ++ nl) = true.
Proof.
  induction s as [|c s IH].
  - cbn [append]. induction text as [|c text IH]; [reflexivity|].
    cbn [append complete] in *. destruct (text ++ nl) eqn:E; [|exact IH].
    destruct text; discriminate.
  - cbn [append complete]. destruct (s ++ text ++ nl) eqn:E; [|exact IH].
    destruct s; [destruct text|]; discriminate.
Qed.

Lemma lines_written_print (text stream : string) :
  lines_written (print text stream)
  = lines_written stream + count_char "010" text + 1.
Proof.
  unfold lines_written, print. rewrite !count_char_app. simpl. lia.
Qed.

Lemma iteration_lines (loads : string -> outcome json) (self : server) (p : process) :
  (stdout p = "" \/ complete (stdout p) = true) ->
  lines_written (stdout (iteration loads self p)) + input_lines (stdin (iteration loads self p))
  <= lines_written (stdout p) + input_lines (stdin p) /\
  (stdout (iteration loads self p) = "" \/ complete (stdout (iteration loads self p)) = true).
Proof.
  intros Hc. unfold iteration.
  destruct (stdin p) as [|c input] eqn:Es.
  - cbn [readline String.eqb stdin stdout]. split; [lia | exact Hc].
  - pose proof (input_lines_readline (String c input)) as Hlines.
    pose proof (readline_empty (String c input)) as Hempty.
    destruct (readline (String c input)) as [line rest]. cbn [fst snd] in *.
    rewrite Hlines by discriminate.
    destruct (String.eqb line "") eqn:E.
    { apply String.eqb_eq in E. specialize (Hempty E). discriminate. }
    destruct (loads line) as [request|e]; cbn [stdin stdout]; [|split; [lia | exact Hc]].
    destruct (handle_request self request (db p)) as [[response|e] db'];
      cbn [stdin stdout]; [|split; [lia | exact Hc]].
    split.
    + rewrite lines_written_print. rewrite (dumps_one_line response). lia.
    + right. unfold print. apply complete_line.
Qed.

Lemma loop_lines (loads : string -> outcome json) (self : server)
    (turns : nat) (p : process) :
  (stdout p = "" \/ complete (stdout p) = true) ->
  lines_written (stdout (loop loads self turns p))
  <= lines_written (stdout p) + input_lines (stdin p) /\
  (stdout (loop loads self turns p) = "" \/
   complete (stdout (loop loads self turns p)) = true).
Proof.
  revert p. induction turns as [|turns IH]; intros p Hc; cbn [loop].
  - split; [lia | exact Hc].
  - destruct (running p); [|split; [lia | exact Hc]].
    destruct (iteration_lines loads self p Hc) as [Hle Hc'].
    destruct (IH _ Hc') as [Hle' Hc''].
    split; [lia | exact Hc''].
Qed.

(** X12: whatever the input, the output of [run] is made of whole lines,
    and there are no more of them than lines in the input: a line of input
    is answered by one line or by none. *)
Theorem run_answers_line_by_line :
  forall (loads : string -> outcome json) (self : server) (input : string) (st : store),
    lines_written (stdout (run loads self input st)) <= input_lines input /\
    complete (stdout (run loads self input st)) = true.
Proof.
  intros loads self input st. unfold run.
  destruct (loop_lines loads self (S (String.length input)) (start input st))
    as [Hle Hc]; [left; reflexivity|].
  cbn [start stdout stdin lines_written count_char] in Hle.
  split; [exact Hle|].
  destruct Hc as [-> | Hc]; [reflexivity | exact Hc].
Qed.

(** ** The client and its data frame *)

Lemma split_nonempty (sep : ascii) (text : string) : split sep text <> [].
Proof.
  destruct text as [|c text]; simpl; [discriminate|].
  destruct (Ascii.eqb c sep); [discriminate|].
  destruct (split sep text); discriminate.
Qed.

Lemma split_line (line rest : string) :
  contains_char "010" line = false ->
  split "010" (line ++ nl ++ rest) = line :: split "010" rest.
Proof.
  change (nl ++ rest) with (String "010" rest).
  induction line as [|c line IH]; intros H.
  - reflexivity.
  - simpl in H |- *. destruct (Ascii.eqb c "010"); [discriminate|].
    rewrite (IH H). reflexivity.
Qed.

Lemma one_line_contains (s : string) : one_line s -> contains_char "010" s = false.
Proof.
  unfold one_line. induction s as [|c s IH]; simpl; [reflexivity|].
  destruct (Ascii.eqb c "010"); simpl; [discriminate | exact IH].
Qed.

(** The scan of a body whose first data line comes after lines that are
    not data lines. *)
Lemma first_data_frame (loads : string -> outcome json)
    (before : list string) (frame rest : string) :
  Forall other_line before ->
  contains_char "010" frame = false ->
  first_data loads (split "010" (unlines before ++ "data: " ++ frame ++ nl ++ rest))
  = loads frame.
Proof.
  intros Hbefore Hframe. induction Hbefore as [|line before [Hfree Hother] _ IH].
  - cbn [unlines fold_right append].
    change (String "d" (String "a" (String "t" (String "a" (String ":" (String " "
              (frame ++ nl ++ rest)))))))
      with (("data: " ++ frame) ++ nl ++ rest).
    rewrite split_line.
    + cbn. destruct frame; reflexivity.
    + cbn. exact Hframe.
  - cbn [unlines fold_right]. fold (unlines before).
    rewrite !append_assoc. rewrite split_line by exact Hfree.
    cbn [first_data]. rewrite Hother. exact IH.
Qed.

(** X13: [_call_tool] returns what [json.loads] makes of the first line of
    the body that begins with "data: ", with the prefix cut off: the lines
    before it are passed over, what follows it is never looked at, and a
    frame that does not parse raises instead of giving the "No valid
    response" object. *)
Theorem first_data_frame_wins :
  forall (post : string -> json -> list (string * string) -> outcome string)
         (loads : string -> outcome json)
         (self : client) (tool_name : string) (arguments : json)
         (before : list string) (frame rest : string),
    post (base_url self) (payload tool_name arguments) (headers self)
    = Return (unlines before ++ "data: " ++ frame ++ nl ++ rest) ->
    Forall other_line before ->
    contains_char "010" frame = false ->
    _call_tool post loads self tool_name arguments = loads frame.
Proof.
  intros post loads self tool_name arguments before frame rest Hpost Hbefore Hframe.
  unfold _call_tool. rewrite Hpost. apply first_data_frame; assumption.
Qed.

Lemma first_data_frame_wins_witness :
  _call_tool
    (fun _ _ _ =>
       Return (unlines ["event: message"; "id: 7"]
               ++ "data: " ++ "[1, 2]" ++ nl ++ "data: [3]" ++ nl ++ nl))
    Parser.loads (init "http://localhost:3000" "key") "posts_list" (JObj [])
  = Parser.loads "[1, 2]".
Proof.
  apply (first_data_frame_wins
           (fun _ _ _ =>
              Return (unlines ["event: message"; "id: 7"]
                      ++ "data: " ++ "[1, 2]" ++ nl ++ "data: [3]" ++ nl ++ nl))
           Parser.loads (init "http://localhost:3000" "key") "posts_list" (JObj [])
           ["event: message"; "id: 7"] "[1, 2]" ("data: [3]" ++ nl ++ nl)).
  - reflexivity.
  - repeat constructor.
  - reflexivity.
Defined.

(** X14: every request [_call_tool] builds is answered by the server, with
    the identifier 1 and never by raising; through a transport that returns
    the server's response as one data frame, [_call_tool] hands back what
    [json.loads] makes of the serialised response. *)
Theorem client_call_is_answered :
  forall (loads : string -> outcome json) (server : Server.server) (st : store)
         (self : client) (tool_name : string) (arguments : json),
    exists response st',
      handle_request server (payload tool_name arguments) st = (Return response, st') /\
      field "id" response = Some (JNum 1) /\
      _call_tool (framed server st) loads self tool_name arguments
      = loads (dumps response).
Proof.
  intros loads server st self tool_name arguments.
  destruct (guarded_call_answers server (JNum 1) (JStr tool_name) arguments st)
    as (response & st' & Hrun & Hid).
  assert (Hh : handle_request server (payload tool_name arguments) st
               = (Return response, st')) by exact Hrun.
  exists response, st'. split; [exact Hh|]. split; [exact Hid|].
  unfold _call_tool, framed. rewrite Hh.
  apply (first_data_frame loads [] (dumps response) nl);
    [constructor | apply one_line_contains, dumps_one_line].
Qed.
